(** * UnifiedFinanceCSV: the data transformations of the finance dashboard

    A shallow embedding of [UnifiedFinanceCSV.py]: the sidebar's filter
    resolution and the three chart functions
    [plot_revenue_vs_expenditure], [plot_expenditure_trends] and
    [plot_revenue_rankings], together with the pandas / seaborn / Python
    operations they call.

    Modelling conventions.
    - A loaded table is a [DataFrame]: its header ([columns]) and its
      rows.  The four columns every chart reads unconditionally (State,
      Year, Totals.Revenue, Totals.Expenditure) are typed fields of [Row];
      the header is what [plot_expenditure_trends] consults for the two
      detail columns.  A table whose header lacks one of the four base
      columns, for which pandas raises [KeyError], is outside the model:
      statements about what the views show are for tables with
      [base_columns].
    - Numeric cells are integers ([Z]), as pandas reads a column of whole
      numbers (64-bit integers).  The per-state sum of [groupby] is an
      int64 sum and wraps around ([sum_int64]).  A bar height (seaborn's
      mean estimator) is a binary64 number, given as the rational it
      denotes: [mean] is defined where the additions are exact in
      binary64 (absolute values adding up to at most 2^53) and rounds
      the quotient to the nearest binary64 number ([round64]).
    - pandas objects live in a heap of objects addressed by location, so
      that the one in-place update of the program
      ([df_melted['Metric'] = ...]) is an update of a heap cell.
    - Streamlit output is a log of events ([st.warning], [st.error],
      [st.pyplot]).
    - [sort_values] is called with its default [kind='quicksort'], which
      numpy does not promise to be stable: the sorting routine is a
      parameter [argsort], known only through its contract (it returns a
      permutation of the positions that puts the keys in ascending
      order).  Python's builtin [sorted] is stable and is modelled by a
      stable insertion sort. *)

From Stdlib Require Import ZArith QArith Ascii String List Sorted Permutation Lia.
From stdpp Require Import base option list sets sorting strings pretty.

Local Open Scope Z_scope.

(** ** Python: exceptions, indexing, [sorted] *)

Inductive exn := IndexError | TypeError.

Inductive result (A : Type) : Type :=
| Ok (a : A)
| Raise (e : exn).
Arguments Ok {A} a.
Arguments Raise {A} e.

(** [l[i]] on a Python list: a negative index counts from the end, an
    index out of range raises [IndexError]. *)
Definition py_getitem {A} (l : list A) (i : Z) : result A :=
  let j := if i <? 0 then Z.of_nat (length l) + i else i in
  if j <? 0 then Raise IndexError
  else match l !! Z.to_nat j with
       | Some x => Ok x
       | None => Raise IndexError
       end.

(** [sorted(xs)]: a stable sort; [insort] puts [x] in front of the first
    element that is not smaller, so equal elements keep their order. *)
Fixpoint insort {A} (leb : A → A → bool) (x : A) (l : list A) : list A :=
  match l with
  | [] => [x]
  | y :: l' => if leb x y then x :: l else y :: insort leb x l'
  end.

Definition sorted {A} (leb : A → A → bool) (l : list A) : list A :=
  foldr (insort leb) [] l.

(** [f"{n}"] for an integer. *)
Definition str_of_Z (n : Z) : string := pretty n.

(** [s.replace(old, new)] for a non-empty [old]: every occurrence, left to
    right, without overlap.  [skip] counts the characters of a matched
    occurrence that are still to be dropped. *)
Fixpoint replace_from (old new : string) (skip : nat) (s : string) : string :=
  match s with
  | EmptyString => EmptyString
  | String c s' =>
      match skip with
      | S k => replace_from old new k s'
      | O =>
          if String.prefix old s
          then new +:+ replace_from old new (String.length old - 1) s'
          else String c (replace_from old new 0 s')
      end
  end.

Definition str_replace (old new s : string) : string := replace_from old new 0 s.

(** The order on strings, by character code as Python compares them. *)
Definition str_le (s t : string) : Prop := String.leb s t = true.
Definition str_lt (s t : string) : Prop := String.ltb s t = true.

(** ** pandas: the data model *)

Record Row := mkRow {
  State : string;
  Year : Z;
  Totals_Revenue : Z;
  Totals_Expenditure : Z;
  Health_Total : Z;
  Education_Total : Z
}.

Record DataFrame := mkDataFrame {
  columns : list string;
  rows : list Row
}.

Definition health_col : string := "Details.Health.Health Total Expenditure".
Definition edu_col : string := "Details.Education.Education Total".

(** A row of the long form made by [pd.melt]. *)
Record LongRow := mkLongRow {
  lr_State : string;
  lr_Year : Z;
  Metric : string;
  Amount : Z
}.

(** A Series indexed by state name. *)
Abbreviation Series := (list (string * Z)) (only parsing).

(** ** pandas: the operations *)

(** [col.unique()]: the distinct values in order of first appearance. *)
Fixpoint unique_from {A} `{EqDecision A} (seen l : list A) : list A :=
  match l with
  | [] => []
  | x :: l' =>
      if decide (x ∈ seen) then unique_from seen l'
      else x :: unique_from (x :: seen) l'
  end.

Definition unique {A} `{EqDecision A} (l : list A) : list A := unique_from [] l.

(** One value column of [pd.melt]: every row of the table, tagged with the
    column's name. *)
Definition melt_var (name : string) (col : Row → Z) (rs : list Row) : list LongRow :=
  (λ r, mkLongRow (State r) (Year r) name (col r)) <$> rs.

(** [pd.melt(df, id_vars=['State','Year'],
             value_vars=['Totals.Revenue','Totals.Expenditure'],
             var_name='Metric', value_name='Amount')]:
    the value columns one after the other. *)
Definition melt (df : DataFrame) : list LongRow :=
  melt_var "Totals.Revenue" Totals_Revenue (rows df)
  ++ melt_var "Totals.Expenditure" Totals_Expenditure (rows df).

(** [frame['Metric'] = col]: the column is replaced cell by cell. *)
Definition set_Metric (lf : list LongRow) (col : list string) : list LongRow :=
  zip_with (λ r m, mkLongRow (lr_State r) (lr_Year r) m (Amount r)) lf col.

Definition Zsum (l : list Z) : Z := foldr Z.add 0 l.

(** An integer column holds 64-bit integers: additions are in two's
    complement and wrap around. *)
Definition wrap_int64 (z : Z) : Z := (z + 2 ^ 63) mod 2 ^ 64 - 2 ^ 63.

Definition sum_int64 (l : list Z) : Z :=
  foldl (λ acc x, wrap_int64 (acc + x)) 0 l.

(** [frame.groupby('State')[col].sum()]: one entry per distinct state, the
    group keys in ascending order (groupby's default [sort=True]). *)
Definition groupby_State_sum (col : Row → Z) (rs : list Row) : Series :=
  (λ s, (s, sum_int64 (col <$> filter (λ r, State r = s) rs)))
    <$> sorted String.leb (unique (State <$> rs)).

(** [obj.take(idx)]: the entries at the given positions, in that order. *)
Definition take_idx {A} (idx : list nat) (l : list A) : list A :=
  omap (λ i, l !! i) idx.

(** [obj.head(n)] and [obj.tail(n)]. *)
Definition head {A} (n : nat) (l : list A) : list A := take n l.
Definition tail {A} (n : nat) (l : list A) : list A := drop (length l - n) l.

(** pandas' [nargsort]: for a descending sort the keys are reversed, sorted
    ascending, and the resulting positions mapped back and reversed. *)
Definition nargsort (argsort : list Z → list nat) (ascending : bool)
    (keys : list Z) : list nat :=
  if ascending then argsort keys
  else reverse ((λ j, (length keys - 1 - j)%nat) <$> argsort (reverse keys)).

(** [df.sort_values('Year')]. *)
Definition sort_values_Year (argsort : list Z → list nat) (rs : list Row) : list Row :=
  take_idx (nargsort argsort true (Year <$> rs)) rs.

(** [series.sort_values(ascending=...)]. *)
Definition Series_sort_values (argsort : list Z → list nat) (ascending : bool)
    (s : Series) : Series :=
  take_idx (nargsort argsort ascending (snd <$> s)) s.

(** ** numpy: two sorting routines that meet [argsort]'s contract

    [argsort_with cmp] sorts the positions by insertion with the
    comparison [cmp].  With [Z.leb] equal keys keep their order (what
    [kind='stable'] gives); with [Z.ltb] equal keys come out in reverse
    order. *)
Definition argsort_with (cmp : Z → Z → bool) (keys : list Z) : list nat :=
  fst <$> sorted (λ p q : nat * Z, cmp (snd p) (snd q))
                 (zip (seq 0 (length keys)) keys).

Definition argsort_stable : list Z → list nat := argsort_with Z.leb.
Definition argsort_reversing : list Z → list nat := argsort_with Z.ltb.

(** ** seaborn and Streamlit *)

(** Binary64 arithmetic.  [round_half_even n d] is the integer nearest to
    [n / d], the even one of two that are equally near. *)
Definition round_half_even (n d : Z) : Z :=
  let q := n / d in
  let r := n mod d in
  if 2 * r <? d then q
  else if d <? 2 * r then q + 1
  else if Z.even q then q else q + 1.

(** [a / (b * 2^e)] as a fraction of integers. *)
Definition scale2 (a b e : Z) : Z * Z :=
  if 0 <=? e then (a, b * 2 ^ e) else (a * 2 ^ (- e), b).

(** The binary64 number nearest to [a / b], for positive [a] and [b]: a
    53-bit integer [m] times [2^e], where [e] is the exponent that puts
    [a / (b * 2^e)] between [2^52] and [2^53] (the exponent range of
    binary64 is not reached by the quotients of 64-bit integers). *)
Definition float64_of_ratio (a b : Z) : Q :=
  let e0 := Z.log2 a - Z.log2 b - 52 in
  let e := if fst (scale2 a b e0) / snd (scale2 a b e0) <? 2 ^ 52
           then e0 - 1 else e0 in
  let m := round_half_even (fst (scale2 a b e)) (snd (scale2 a b e)) in
  Qred (if 0 <=? e then inject_Z (m * 2 ^ e) else m # Z.to_pos (2 ^ (- e))).

(** Rounding to the nearest binary64 number, ties to even. *)
Definition round64 (q : Q) : Q :=
  match Qnum q with
  | 0 => 0
  | Zpos a => float64_of_ratio (Zpos a) (Zpos (Qden q))
  | Zneg a => - float64_of_ratio (Zpos a) (Zpos (Qden q))
  end.

(** The arithmetic mean, seaborn's default estimator: the values are
    added up as binary64 numbers and the sum is divided by their number.
    When the absolute values add up to at most 2^53, every value and
    every partial sum, in whatever order, is an integer that binary64
    holds exactly, and the mean is the exact quotient rounded once.
    Beyond that the result depends on the order in which the numeric
    library adds, and [mean] gives [None]. *)
Definition mean (l : list Z) : option Q :=
  if Zsum (Z.abs <$> l) <=? 2 ^ 53
  then Some (round64 (Zsum l # Pos.of_nat (length l)))
  else None.

(** The bars [sns.barplot] draws for a list of (category, amount)
    observations: one bar per category, in order of first appearance,
    whose height is the mean of the category's amounts. *)
Definition barplot_bars (data : list (string * Z)) : list (string * option Q) :=
  (λ c, (c, mean (snd <$> filter (λ p, fst p = c) data)))
    <$> unique (fst <$> data).

Inductive plot_call :=
| sns_barplot (data : list (string * Z))
| sns_lineplot (data : list (Z * Z)).

Record axes := mkAxes { ax_title : string; ax_plot : plot_call }.

Record figure := mkFigure { suptitle : option string; fig_axes : list axes }.

Inductive event :=
| st_warning (msg : string)
| st_error (msg : string)
| st_pyplot (fig : figure).

(** ** The session: a heap of pandas objects and the page's output *)

Abbreviation loc := nat (only parsing).

Inductive object :=
| DataFrameObj (df : DataFrame)
| LongFrameObj (lf : list LongRow)
| SeriesObj (s : Series).

Record session := mkSession { heap : list object; page : list event }.

(** A computation reads and updates the session, and returns a value or
    raises. *)
Definition M (A : Type) : Type := session → result (A * session).

Definition ret {A} (a : A) : M A := λ σ, Ok (a, σ).

Definition bind {A B} (c : M A) (k : A → M B) : M B :=
  λ σ, match c σ with
       | Ok (a, σ') => k a σ'
       | Raise e => Raise e
       end.

Notation "'let*' x := c 'in' k" := (bind c (λ x, k))
  (at level 10, x name, c at level 100, k at level 200).
Notation "c ;; k" := (bind c (λ _, k))
  (at level 100, k at level 200, right associativity).

(** A pandas call that builds a new object puts it in a fresh cell. *)
Definition new (o : object) : M loc :=
  λ σ, Ok (length (heap σ), mkSession (heap σ ++ [o]) (page σ)).

Definition get_frame (l : loc) : M DataFrame :=
  λ σ, match heap σ !! l with
       | Some (DataFrameObj d) => Ok (d, σ)
       | _ => Raise TypeError
       end.

Definition get_long (l : loc) : M (list LongRow) :=
  λ σ, match heap σ !! l with
       | Some (LongFrameObj lf) => Ok (lf, σ)
       | _ => Raise TypeError
       end.

Definition get_series (l : loc) : M Series :=
  λ σ, match heap σ !! l with
       | Some (SeriesObj s) => Ok (s, σ)
       | _ => Raise TypeError
       end.

(** An in-place update of the object in cell [l]. *)
Definition set_obj (l : loc) (o : object) : M unit :=
  λ σ, Ok (tt, mkSession (<[l := o]> (heap σ)) (page σ)).

Definition emit (e : event) : M unit :=
  λ σ, Ok (tt, mkSession (heap σ) (page σ ++ [e])).

(** ** The sidebar's filter resolution *)

(** [states = sorted(df['State'].unique())] *)
Definition states (df : DataFrame) : list string :=
  sorted String.leb (unique (State <$> rows df)).

(** [years = sorted(df['Year'].unique())] *)
Definition years (df : DataFrame) : list Z :=
  sorted Z.leb (unique (Year <$> rows df)).

(** The slider's default, [value=years[-1]]. *)
Definition default_year (df : DataFrame) : result Z :=
  py_getitem (years df) (-1).

(** ** The chart functions *)

Definition plot_revenue_vs_expenditure (df : loc) (state : string) (year : Z) : M unit :=
  let* d := get_frame df in
  let* df_melted := new (LongFrameObj (melt d)) in
  let* m := get_long df_melted in
  set_obj df_melted
    (LongFrameObj (set_Metric m (str_replace "Totals." "" <$> (Metric <$> m))));;
  let* m := get_long df_melted in
  let* filtered_data :=
    new (LongFrameObj (filter (λ r, lr_State r = state ∧ lr_Year r = year) m)) in
  let* f := get_long filtered_data in
  match f with
  | [] =>
      emit (st_warning ("No data available for " +:+ state +:+ " in "
                        +:+ str_of_Z year
                        +:+ ". Please select another combination."))
  | _ =>
      emit (st_pyplot
              (mkFigure None
                 [mkAxes ("Revenue vs. Expenditure for " +:+ state +:+ " in "
                          +:+ str_of_Z year)
                    (sns_barplot ((λ r, (Metric r, Amount r)) <$> f))]))
  end.

Definition plot_expenditure_trends (argsort : list Z → list nat)
    (df : loc) (state : string) : M unit :=
  let* d := get_frame df in
  if decide (health_col ∉ columns d ∨ edu_col ∉ columns d)
  then emit (st_error "Error: Required expenditure columns not found in the dataset.")
  else
    let* selected :=
      new (DataFrameObj (mkDataFrame (columns d)
                           (filter (λ r, State r = state) (rows d)))) in
    let* s := get_frame selected in
    let* state_data :=
      new (DataFrameObj (mkDataFrame (columns s)
                           (sort_values_Year argsort (rows s)))) in
    let* sd := get_frame state_data in
    match rows sd with
    | [] =>
        emit (st_warning ("No data available for the state: " +:+ state +:+ "."))
    | _ =>
        emit (st_pyplot
                (mkFigure None
                   [mkAxes ("Health Expenditure Trend for " +:+ state)
                      (sns_lineplot ((λ r, (Year r, Health_Total r)) <$> rows sd))]));;
        emit (st_pyplot
                (mkFigure None
                   [mkAxes ("Education Expenditure Trend for " +:+ state)
                      (sns_lineplot ((λ r, (Year r, Education_Total r)) <$> rows sd))]))
    end.

Definition plot_revenue_rankings (argsort : list Z → list nat)
    (df : loc) (year : Z) : M unit :=
  let* d := get_frame df in
  let* df_year :=
    new (DataFrameObj (mkDataFrame (columns d)
                         (filter (λ r, Year r = year) (rows d)))) in
  let* dy := get_frame df_year in
  match rows dy with
  | [] =>
      emit (st_warning ("No data available for the year: " +:+ str_of_Z year +:+ "."))
  | _ =>
      let* grouped := new (SeriesObj (groupby_State_sum Totals_Revenue (rows dy))) in
      let* g := get_series grouped in
      let* state_revenues := new (SeriesObj (Series_sort_values argsort false g)) in
      let* sr := get_series state_revenues in
      let* top_10_states := new (SeriesObj (head 10 sr)) in
      let* last_10 := new (SeriesObj (tail 10 sr)) in
      let* l10 := get_series last_10 in
      let* bottom_10_states := new (SeriesObj (Series_sort_values argsort true l10)) in
      let* top := get_series top_10_states in
      let* bottom := get_series bottom_10_states in
      emit (st_pyplot
              (mkFigure (Some ("State Revenue Rankings for " +:+ str_of_Z year))
                 [mkAxes "Top 10 States by Revenue Collection" (sns_barplot top);
                  mkAxes "Bottom 10 States by Revenue Collection" (sns_barplot bottom)]))
  end.

(** The values the chart functions compute, named as in the source. *)

(** [filtered_data] of [plot_revenue_vs_expenditure], as the (Metric,
    Amount) observations handed to [sns.barplot]. *)
Definition filtered_data (df : DataFrame) (state : string) (year : Z) : list (string * Z) :=
  (λ r, (Metric r, Amount r))
    <$> filter (λ r, lr_State r = state ∧ lr_Year r = year)
          (set_Metric (melt df) (str_replace "Totals." "" <$> (Metric <$> melt df))).

(** [state_data] of [plot_expenditure_trends]. *)
Definition state_data (argsort : list Z → list nat) (df : DataFrame) (state : string) : list Row :=
  sort_values_Year argsort (filter (λ r, State r = state) (rows df)).

(** [state_revenues], [top_10_states] and [bottom_10_states] of
    [plot_revenue_rankings]. *)
Definition state_revenues (argsort : list Z → list nat) (df : DataFrame) (year : Z) : Series :=
  Series_sort_values argsort false
    (groupby_State_sum Totals_Revenue (filter (λ r, Year r = year) (rows df))).

Definition top_10_states (argsort : list Z → list nat) (df : DataFrame) (year : Z) : Series :=
  head 10 (state_revenues argsort df year).

Definition bottom_10_states (argsort : list Z → list nat) (df : DataFrame) (year : Z) : Series :=
  Series_sort_values argsort true (tail 10 (state_revenues argsort df year)).

(** The rows of a table that a selection matches. *)
Definition rows_of_state (df : DataFrame) (state : string) : list Row :=
  filter (λ r, State r = state) (rows df).

Definition rows_of_year (df : DataFrame) (year : Z) : list Row :=
  filter (λ r, Year r = year) (rows df).

Definition rows_of_state_year (df : DataFrame) (state : string) (year : Z) : list Row :=
  filter (λ r, State r = state ∧ Year r = year) (rows df).

(** The contract of numpy's [argsort]: the result lists every position of
    the array once, and reading the keys in that order gives an ascending
    sequence. *)
Definition argsort_contract (argsort : list Z → list nat) : Prop :=
  ∀ keys : list Z,
    argsort keys ≡ₚ seq 0 (length keys)
    ∧ Sorted Z.le (take_idx (argsort keys) keys).

(** Example tables. *)
Definition ex_CA : DataFrame :=
  mkDataFrame ["State"; "Year"; "Totals.Revenue"; "Totals.Expenditure"; health_col; edu_col]
    [mkRow "CA" 2020 100 80 7 5; mkRow "CA" 2021 120 90 8 6].

Definition ex_dup : DataFrame :=
  mkDataFrame ["State"; "Year"; "Totals.Revenue"; "Totals.Expenditure"; health_col; edu_col]
    [mkRow "CA" 2020 100 80 7 5; mkRow "NY" 2020 60 40 3 2; mkRow "CA" 2020 50 20 9 4].

(** Four rows of one state, two per year, the later year first. *)
Definition ex_ties : DataFrame :=
  mkDataFrame ["State"; "Year"; "Totals.Revenue"; "Totals.Expenditure"; health_col; edu_col]
    [mkRow "CA" 2020 100 80 7 5; mkRow "CA" 2020 50 20 9 4;
     mkRow "CA" 2019 90 70 6 3; mkRow "CA" 2019 40 10 8 2].

Definition ex_no_health : DataFrame :=
  mkDataFrame ["State"; "Year"; "Totals.Revenue"; "Totals.Expenditure"; edu_col]
    [mkRow "CA" 2020 100 80 0 5; mkRow "CA" 2021 120 90 0 6].

(** Twenty-five states S1 .. S25 in 2022, state Sn with revenue 10 n. *)
Definition ex_25 : DataFrame :=
  mkDataFrame ["State"; "Year"; "Totals.Revenue"; "Totals.Expenditure"; health_col; edu_col]
    ((λ n : nat, mkRow ("S" +:+ pretty (Z.of_nat n)) 2022 (10 * Z.of_nat n) 0 0 0)
       <$> seq 1 25).

Definition session0 (df : DataFrame) : session := mkSession [DataFrameObj df] [].

(** [unchanged σ σ']: every object of [σ] is still there, as it was. *)
Definition unchanged (σ σ' : session) : Prop :=
  ∀ (l : loc) (o : object), heap σ !! l = Some o → heap σ' !! l = Some o.


(** A table that has the four columns every view reads. *)
Definition base_columns (df : DataFrame) : Prop :=
  "State" ∈ columns df ∧ "Year" ∈ columns df
  ∧ "Totals.Revenue" ∈ columns df ∧ "Totals.Expenditure" ∈ columns df.


(** The revenues of the table stay within 64-bit integers when added up:
    their absolute values add up to less than 2^63. *)
Definition revenue_in_range (df : DataFrame) : Prop :=
  Zsum (Z.abs <$> (Totals_Revenue <$> rows df)) < 2 ^ 63.

(** The revenues and the expenditures of the table are added exactly in
    binary64: their absolute values add up to at most 2^53. *)
Definition amounts_in_range (df : DataFrame) : Prop :=
  Zsum (Z.abs <$> (Totals_Revenue <$> rows df)) ≤ 2 ^ 53
  ∧ Zsum (Z.abs <$> (Totals_Expenditure <$> rows df)) ≤ 2 ^ 53.

(** The rows of a state ordered by Year with rows of equal Year in their
    input order: a stable sort. *)
Definition rows_of_state_stable (df : DataFrame) (state : string) : list Row :=
  sorted (λ r1 r2, Year r1 <=? Year r2) (rows_of_state df state).

(** ** Loading the data *)

(** [load_data(uploaded_file)].  [pd.read_csv] is a parameter: for the
    content of the uploaded file it gives a table, or raises an exception,
    given here by its message.  [st.cache_data] is left out: one run of the
    script calls [load_data] once. *)
Definition load_data (read_csv : string → string + DataFrame) (uploaded_file : string)
    : M (option loc) :=
  match read_csv uploaded_file with
  | inr d => let* df := new (DataFrameObj d) in ret (Some df)
  | inl e => emit (st_error ("Error loading data: " +:+ e));; ret None
  end.


(** ** The script: sidebar and tabs

    One run of the script from its title on (the page configuration and
    the style sheet before it only set the presentation).  The widgets are
    parameters: [selectbox options] is the option the state selector
    returns and [select_slider options value] the one the year slider
    returns, [value] being its default. *)

Record host := mkHost {
  read_csv : string → string + DataFrame;
  selectbox : list string → string;
  select_slider : list Z → Z → Z
}.

Inductive element :=
| st_title (body : string)
| st_markdown (body : string)
| st_header (body : string)
| st_file_uploader (label : string)
| st_success (body : string)
| st_info (body : string)
| st_selectbox (label : string) (options : list string)
| st_select_slider (label : string) (options : list Z) (value : Z)
| st_tabs (labels : list string)
| st_chart (e : event).

(** How a run ends before the end of the script: at [st.stop()], or with
    an exception. *)
Inductive outcome :=
| Stopped
| NameError (name : string)
| Uncaught (e : exn).

Record script_state := mkScript { objects : list object; shown : list element }.

Inductive step (A : Type) : Type :=
| Next (a : A)
| Halt (o : outcome).
Arguments Next {A} a.
Arguments Halt {A} o.

Definition Script (A : Type) : Type := script_state → step A * script_state.

Definition and_then {A B} (c : Script A) (k : A → Script B) : Script B :=
  λ s, match c s with
       | (Next a, s') => k a s'
       | (Halt o, s') => (Halt o, s')
       end.

Notation "'let+' x := c 'in' k" := (and_then c (λ x, k))
  (at level 10, x name, c at level 100, k at level 200).
Notation "c >>> k" := (and_then c (λ _, k))
  (at level 100, k at level 200, right associativity).

Definition done_with {A} (a : A) : Script A := λ s, (Next a, s).

Definition show (e : element) : Script unit :=
  λ s, (Next tt, mkScript (objects s) (shown s ++ [e])).

(** A call of [load_data] or of a chart function: it works on the objects
    of the run and what it emits goes on the page. *)
Definition call {A} (c : M A) : Script A :=
  λ s, match c (mkSession (objects s) []) with
       | Ok (a, σ') =>
           (Next a, mkScript (heap σ') (shown s ++ (st_chart <$> page σ')))
       | Raise e => (Halt (Uncaught e), s)
       end.

(** The value of a Python expression that may raise. *)
Definition eval {A} (r : result A) : Script A :=
  λ s, match r with
       | Ok a => (Next a, s)
       | Raise e => (Halt (Uncaught e), s)
       end.

Definition st_stop {A} : Script A := λ s, (Halt Stopped, s).

Definition raise_NameError {A} (name : string) : Script A :=
  λ s, (Halt (NameError name), s).

(** The [with st.sidebar:] block.  Its result is what the rest of the
    script finds bound: [Some (df, selected_state, selected_year)], or
    [None] when [df] is [None] and the two selections were never
    assigned. *)
Definition sidebar (h : host) (uploaded_file : option string)
    : Script (option (loc * string * Z)) :=
  show (st_header "⚙️ Controls & Filters") >>>
  show (st_file_uploader "Upload your finance CSV file") >>>
  match uploaded_file with
  | Some file =>
      let+ df := call (load_data (read_csv h) file) in
      match df with
      | Some df =>
          show (st_success "File loaded successfully!") >>>
          let+ d := call (get_frame df) in
          show (st_selectbox "Select a State" (states d)) >>>
          let selected_state := selectbox h (states d) in
          let+ latest := eval (py_getitem (years d) (-1)) in
          show (st_select_slider "Select a Year" (years d) latest) >>>
          let selected_year := select_slider h (years d) latest in
          done_with (Some (df, selected_state, selected_year))
      | None => done_with None
      end
  | None =>
      show (st_info "Awaiting for a CSV file to be uploaded.") >>>
      st_stop
  end.

(** The three tabs.  The first use of [selected_state] raises [NameError]
    when the sidebar did not assign it. *)
Definition tabs (argsort : list Z → list nat) (bound : option (loc * string * Z))
    : Script unit :=
  show (st_tabs ["📊 Revenue vs. Expenditure"; "📈 Expenditure Trends";
                 "🏆 State Rankings"]) >>>
  match bound with
  | None => raise_NameError "selected_state"
  | Some (df, selected_state, selected_year) =>
      show (st_header ("Revenue vs. Expenditure Analysis for " +:+ selected_state)) >>>
      show (st_markdown ("Comparing total revenue against total expenditure for the year **"
                         +:+ str_of_Z selected_year +:+ "**.")) >>>
      call (plot_revenue_vs_expenditure df selected_state selected_year) >>>
      show (st_header ("Health & Education Expenditure Trends for " +:+ selected_state)) >>>
      show (st_markdown "Visualizing how spending on key sectors has evolved over the years.") >>>
      call (plot_expenditure_trends argsort df selected_state) >>>
      show (st_header ("State Revenue Rankings for " +:+ str_of_Z selected_year)) >>>
      show (st_markdown "Discover the top 10 and bottom 10 states by total revenue collection.") >>>
      call (plot_revenue_rankings argsort df selected_year)
  end.

Definition script (h : host) (argsort : list Z → list nat) (uploaded_file : option string)
    : Script unit :=
  show (st_title "💰 USA State Financial Analysis Dashboard") >>>
  show (st_markdown "An interactive dashboard to explore and visualize financial data of US states over the years.") >>>
  let+ bound := sidebar h uploaded_file in
  tabs argsort bound.

(** A host for the examples: every file parses to [d] unless it is empty,
    and the widgets return their defaults (the first state, the given
    year). *)
Definition ex_host (d : DataFrame) : host :=
  mkHost (λ file, match file with
                  | EmptyString => inl "No columns to parse from file"
                  | _ => inr d
                  end)
         (λ options, default "" (options !! 0%nat))
         (λ _ value, value).

(** * Properties *)

(** ** Numbers: 64-bit integers and binary64 *)

Lemma wrap_int64_small (z : Z) : - 2 ^ 63 ≤ z < 2 ^ 63 → wrap_int64 z = z.
Proof. intros H. unfold wrap_int64. rewrite Z.mod_small; lia. Qed.

Lemma wrap_int64_add_l (a y : Z) :
  wrap_int64 (wrap_int64 a + y) = wrap_int64 (a + y).
Proof.
  unfold wrap_int64. f_equal.
  replace ((a + 2 ^ 63) mod 2 ^ 64 - 2 ^ 63 + y + 2 ^ 63)
    with ((a + 2 ^ 63) mod 2 ^ 64 + y) by lia.
  rewrite Zplus_mod_idemp_l. f_equal. lia.
Qed.

Lemma foldl_wrap_int64 (a : Z) (l : list Z) :
  foldl (λ acc x, wrap_int64 (acc + x)) (wrap_int64 a) l = wrap_int64 (a + foldr Z.add 0 l).
Proof.
  revert a. induction l as [|x l IH]; intros a; simpl.
  - by rewrite Z.add_0_r.
  - rewrite wrap_int64_add_l, IH. f_equal. lia.
Qed.

(** The int64 sum is the exact sum reduced to the 64-bit range. *)
Lemma sum_int64_wrap (l : list Z) : sum_int64 l = wrap_int64 (Zsum l).
Proof.
  unfold sum_int64, Zsum. change 0 with (wrap_int64 0) at 1.
  by rewrite foldl_wrap_int64.
Qed.

Lemma Zsum_abs_nonneg (l : list Z) : 0 ≤ Zsum (Z.abs <$> l).
Proof. unfold Zsum. induction l as [|x l IH]; csimpl; lia. Qed.

Lemma Zsum_abs_bound (l : list Z) : Z.abs (Zsum l) ≤ Zsum (Z.abs <$> l).
Proof. unfold Zsum. induction l as [|x l IH]; csimpl; lia. Qed.

Lemma Zsum_abs_filter {A} (f : A → Z) (P : A → Prop) `{∀ x, Decision (P x)}
    (l : list A) :
  Zsum (Z.abs <$> (f <$> filter P l)) ≤ Zsum (Z.abs <$> (f <$> l)).
Proof.
  unfold Zsum. induction l as [|x l IH]; [done|].
  rewrite filter_cons. destruct (decide (P x)); csimpl; lia.
Qed.

Lemma sum_int64_exact (l : list Z) :
  Zsum (Z.abs <$> l) < 2 ^ 63 → sum_int64 l = Zsum l.
Proof.
  intros H. rewrite sum_int64_wrap. apply wrap_int64_small.
  pose proof (Zsum_abs_bound l). lia.
Qed.

Lemma Qred_inject_Z (a : Z) : Qred (inject_Z a) = inject_Z a.
Proof.
  unfold Qred, inject_Z.
  pose proof (Z.ggcd_gcd a 1) as Hg.
  pose proof (Z.ggcd_correct_divisors a 1) as Hd.
  destruct (Z.ggcd a 1) as [g [aa bb]]. simpl in *.
  rewrite Z.gcd_1_r in Hg. subst g. destruct Hd as [-> Hb].
  assert (bb = 1) as -> by lia. f_equal. lia.
Qed.

Lemma round_half_even_1 (n : Z) : round_half_even n 1 = n.
Proof. unfold round_half_even. rewrite Z.div_1_r, Z.mod_1_r. done. Qed.

Lemma scale2_int (a k : Z) :
  0 ≤ k →
  fst (scale2 a 1 (- k)) / snd (scale2 a 1 (- k)) = a * 2 ^ k
  ∧ round_half_even (fst (scale2 a 1 (- k))) (snd (scale2 a 1 (- k))) = a * 2 ^ k.
Proof.
  intros Hk. unfold scale2. destruct (Z.leb_spec 0 (- k)) as [H0|H0]; cbn [fst snd].
  - assert (k = 0) as -> by lia. simpl. rewrite round_half_even_1, Z.div_1_r. lia.
  - rewrite Z.opp_involutive, round_half_even_1, Z.div_1_r. done.
Qed.

Lemma float64_of_ratio_int (a : Z) :
  0 < a ≤ 2 ^ 53 → float64_of_ratio a 1 = inject_Z a.
Proof.
  intros [Hpos Hle].
  destruct (decide (a = 2 ^ 53)) as [->|Hne]; [by vm_compute|].
  destruct (Z.log2_spec a Hpos) as [Hlo Hhi].
  pose proof (Z.log2_nonneg a) as Hnn.
  assert (Z.log2 a < 53) as Hla
    by (apply (Z.pow_lt_mono_r_iff 2); lia).
  unfold float64_of_ratio. change (Z.log2 1) with 0. cbv zeta.
  set (k := 52 - Z.log2 a).
  replace (Z.log2 a - 0 - 52) with (- k) by lia.
  assert (0 ≤ k) as Hk by lia.
  assert (0 < 2 ^ k) as Hpow by (apply Z.pow_pos_nonneg; lia).
  assert (2 ^ 52 ≤ a * 2 ^ k) as Hbig.
  { replace (2 ^ 52) with (2 ^ Z.log2 a * 2 ^ k)
      by (rewrite <- Z.pow_add_r by lia; f_equal; lia).
    apply Z.mul_le_mono_nonneg_r; lia. }
  destruct (scale2_int a k Hk) as [Hdiv Hround]. rewrite Hdiv.
  destruct (Z.ltb_spec (a * 2 ^ k) (2 ^ 52)) as [?|_]; [lia|].
  rewrite Hround.
  rewrite <- (Qred_inject_Z a). apply Qred_complete.
  destruct (Z.leb_spec 0 (- k)) as [H0|H0].
  - assert (k = 0) as -> by lia. simpl. by rewrite !Z.mul_1_r.
  - unfold Qeq, inject_Z. cbn [Qnum Qden].
    rewrite Z.opp_involutive, Z2Pos.id by done. lia.
Qed.

(** An integer of magnitude at most 2^53 is a binary64 number. *)
Lemma round64_inject_Z (v : Z) :
  Z.abs v ≤ 2 ^ 53 → round64 (inject_Z v) = inject_Z v.
Proof.
  intros H. unfold round64, inject_Z. cbn [Qnum Qden].
  destruct v as [|a|a]; [done| |].
  - apply float64_of_ratio_int. lia.
  - rewrite float64_of_ratio_int by lia. done.
Qed.

Lemma mean_in_range (l : list Z) :
  Zsum (Z.abs <$> l) ≤ 2 ^ 53 →
  mean l = Some (round64 (Zsum l # Pos.of_nat (length l))).
Proof.
  intros H. unfold mean. by destruct (Z.leb_spec (Zsum (Z.abs <$> l)) (2 ^ 53)); [|lia].
Qed.

(** ** Python's [sorted] and indexing *)

Section sorted_facts.
Context {A : Type} (leb : A → A → bool).

Lemma insort_Permutation (x : A) (l : list A) : insort leb x l ≡ₚ x :: l.
Proof.
  induction l as [|y l IH]; simpl; [done|].
  destruct (leb x y); [done|].
  rewrite IH. apply Permutation_swap.
Qed.

Lemma sorted_Permutation (l : list A) : sorted leb l ≡ₚ l.
Proof.
  induction l as [|x l IH]; simpl; [done|].
  rewrite insort_Permutation. by f_equiv.
Qed.

Lemma sorted_length (l : list A) : length (sorted leb l) = length l.
Proof. by rewrite sorted_Permutation. Qed.

Context (R : relation A).
Hypothesis leb_true : ∀ x y, leb x y = true → R x y.
Hypothesis leb_false : ∀ x y, leb x y = false → R y x.

Lemma insort_HdRel (z x : A) (l : list A) :
  R z x → HdRel R z l → HdRel R z (insort leb x l).
Proof.
  intros Hzx Hl. destruct l as [|y l]; simpl; [by constructor|].
  destruct (leb x y); constructor; [done|]. by inv Hl.
Qed.

Lemma insort_Sorted (x : A) (l : list A) : Sorted R l → Sorted R (insort leb x l).
Proof.
  induction 1 as [|y l Hl IH Hy]; simpl; [by repeat constructor|].
  destruct (leb x y) eqn:E.
  - constructor; [by constructor|]. constructor. by apply leb_true.
  - constructor; [done|]. apply insort_HdRel; [|done]. by apply leb_false.
Qed.

Lemma sorted_Sorted (l : list A) : Sorted R (sorted leb l).
Proof.
  induction l as [|x l IH]; simpl; [constructor|]. by apply insort_Sorted.
Qed.

End sorted_facts.

Lemma py_getitem_last {A} (l : list A) (x : A) : py_getitem (l ++ [x]) (-1) = Ok x.
Proof.
  unfold py_getitem. rewrite length_app. simpl.
  replace (Z.of_nat (length l + 1) + -1) with (Z.of_nat (length l)) by lia.
  destruct (Z.ltb_spec (Z.of_nat (length l)) 0) as [?|_]; [lia|].
  rewrite Nat2Z.id. by rewrite list_lookup_middle.
Qed.

Lemma py_getitem_nil {A} (i : Z) : py_getitem (@nil A) i = Raise IndexError.
Proof.
  unfold py_getitem. rewrite lookup_nil. by repeat case_match.
Qed.

(** ** The order on state names *)

Lemma ascii_compare_Lt_trans (a b c : ascii) :
  Ascii.compare a b = Lt → Ascii.compare b c = Lt → Ascii.compare a c = Lt.
Proof.
  unfold Ascii.compare. rewrite !N.compare_lt_iff. lia.
Qed.

Lemma ascii_compare_Eq (a b : ascii) : Ascii.compare a b = Eq → a = b.
Proof.
  unfold Ascii.compare. rewrite N.compare_eq_iff. intros H.
  rewrite <- (ascii_N_embedding a), <- (ascii_N_embedding b). by rewrite H.
Qed.

Lemma str_compare_Lt_trans (s t u : string) :
  String.compare s t = Lt → String.compare t u = Lt → String.compare s u = Lt.
Proof.
  revert t u. induction s as [|a s IH]; intros [|b t] [|c u]; simpl; try done.
  destruct (Ascii.compare a b) eqn:Eab; [|  |done].
  - apply ascii_compare_Eq in Eab as ->.
    destruct (Ascii.compare b c); [apply IH|done|done].
  - destruct (Ascii.compare b c) eqn:Ebc; [| |done].
    + apply ascii_compare_Eq in Ebc as <-. by rewrite Eab.
    + by rewrite (ascii_compare_Lt_trans a b c).
Qed.

Global Instance str_lt_trans : Transitive str_lt.
Proof.
  intros s t u. unfold str_lt, String.ltb.
  destruct (String.compare s t) eqn:E1; try done.
  destruct (String.compare t u) eqn:E2; try done.
  by rewrite (str_compare_Lt_trans s t u).
Qed.

Lemma str_leb_false (s t : string) : String.leb s t = false → str_le t s.
Proof.
  intros H. destruct (String.leb_total s t) as [E|E]; [congruence|done].
Qed.

Lemma str_le_neq_lt (s t : string) : str_le s t → s ≠ t → str_lt s t.
Proof.
  unfold str_le, str_lt, String.leb, String.ltb.
  destruct (String.compare s t) eqn:E; try done.
  apply String.compare_eq_iff in E. done.
Qed.

(** ** [unique] *)

Section unique_facts.
Context {A : Type} `{EqDecision A}.

Lemma list_elem_of_unique_from (seen l : list A) (x : A) :
  x ∈ unique_from seen l ↔ x ∈ l ∧ x ∉ seen.
Proof.
  revert seen. induction l as [|y l IH]; intros seen; simpl.
  - set_solver.
  - destruct (decide (y ∈ seen)) as [Hy|Hy].
    + rewrite IH. set_solver.
    + rewrite elem_of_cons, IH.
      destruct (decide (x = y)) as [->|Hne]; set_solver.
Qed.

Lemma NoDup_unique_from (seen l : list A) : NoDup (unique_from seen l).
Proof.
  revert seen. induction l as [|y l IH]; intros seen; simpl; [constructor|].
  destruct (decide (y ∈ seen)); [done|].
  constructor; [|done]. rewrite list_elem_of_unique_from. set_solver.
Qed.

Lemma list_elem_of_unique (l : list A) (x : A) : x ∈ unique l ↔ x ∈ l.
Proof. unfold unique. rewrite list_elem_of_unique_from. set_solver. Qed.

Lemma NoDup_unique (l : list A) : NoDup (unique l).
Proof. apply NoDup_unique_from. Qed.

Lemma unique_from_seen (seen l : list A) :
  (∀ x, x ∈ l → x ∈ seen) → unique_from seen l = [].
Proof.
  induction l as [|y l IH]; intros H; simpl; [done|].
  destruct (decide (y ∈ seen)) as [_|Hy]; [|set_solver].
  apply IH. set_solver.
Qed.

Lemma unique_from_app_seen (seen l1 l2 : list A) :
  (∀ x, x ∈ l1 → x ∈ seen) → unique_from seen (l1 ++ l2) = unique_from seen l2.
Proof.
  induction l1 as [|y l IH]; intros H; simpl; [done|].
  destruct (decide (y ∈ seen)) as [_|Hy]; [|set_solver].
  apply IH. set_solver.
Qed.

End unique_facts.

(** Adjacent elements of an ascending list without repetition are
    strictly ascending. *)
Lemma Sorted_NoDup_strict {A} (R S : relation A) (l : list A) :
  (∀ x y, R x y → x ≠ y → S x y) → Sorted R l → NoDup l → Sorted S l.
Proof.
  intros HRS. induction 1 as [|x l Hl IH Hx]; intros Hnd; [constructor|].
  apply NoDup_cons in Hnd as [Hxl Hnd]. constructor; [by apply IH|].
  destruct Hx as [|y l' Hxy]; constructor.
  apply HRS; [done|]. set_solver.
Qed.

(** A strictly ascending list is determined by its elements. *)
Lemma StronglySorted_strict_NoDup {A} (R : relation A) `{!Irreflexive R} (l : list A) :
  StronglySorted R l → NoDup l.
Proof.
  induction 1 as [|x l Hl IH Hx]; constructor; [|done].
  intros Hin. rewrite Forall_forall in Hx. by apply (irreflexivity R x), Hx.
Qed.

Lemma StronglySorted_strict_unique {A} (R : relation A)
    `{!Irreflexive R, !Transitive R} (l1 l2 : list A) :
  StronglySorted R l1 → StronglySorted R l2 → (∀ x, x ∈ l1 ↔ x ∈ l2) → l1 = l2.
Proof.
  intros H1 H2 Hel. apply (StronglySorted_unique_strong R); [|done|done|].
  - intros x y _ _ Hxy Hyx. destruct (irreflexivity R x). by transitivity y.
  - apply NoDup_Permutation; [by eapply StronglySorted_strict_NoDup..|done].
Qed.

Global Instance str_lt_irrefl : Irreflexive str_lt.
Proof.
  intros s H. unfold str_lt, String.ltb in H.
  pose proof (String.compare_antisym s s) as E.
  destruct (String.compare s s); done.
Qed.

(** ** The sidebar's filter resolution *)

Lemma states_spec (df : DataFrame) :
  StronglySorted str_lt (states df) ∧ ∀ s, s ∈ states df ↔ s ∈ State <$> rows df.
Proof.
  unfold states. split.
  - apply Sorted_StronglySorted; [apply _|].
    apply (Sorted_NoDup_strict str_le); [apply str_le_neq_lt| |].
    + apply sorted_Sorted; [done|apply str_leb_false].
    + rewrite sorted_Permutation. apply NoDup_unique.
  - intros s. by rewrite sorted_Permutation, list_elem_of_unique.
Qed.

Lemma years_spec (df : DataFrame) :
  StronglySorted Z.lt (years df) ∧ ∀ y, y ∈ years df ↔ y ∈ Year <$> rows df.
Proof.
  unfold years. split.
  - apply Sorted_StronglySorted; [apply _|].
    apply (Sorted_NoDup_strict Z.le); [lia| |].
    + apply sorted_Sorted; intros x y; [apply Z.leb_le|].
      rewrite Z.leb_gt. lia.
    + rewrite sorted_Permutation. apply NoDup_unique.
  - intros y. by rewrite sorted_Permutation, list_elem_of_unique.
Qed.

(** C4.  For every loaded table the resolved state list is strictly
    ascending (hence free of repetition) and has exactly the values of the
    State column as its elements, and so for the resolved year list and
    the Year column; each is the only list with these two properties. *)
Theorem resolved_sets_sorted_distinct (df : DataFrame) :
  (StronglySorted str_lt (states df)
   ∧ (∀ s, s ∈ states df ↔ s ∈ State <$> rows df)
   ∧ (∀ l, StronglySorted str_lt l → (∀ s, s ∈ l ↔ s ∈ State <$> rows df) →
           l = states df))
  ∧ (StronglySorted Z.lt (years df)
     ∧ (∀ y, y ∈ years df ↔ y ∈ Year <$> rows df)
     ∧ (∀ l, StronglySorted Z.lt l → (∀ y, y ∈ l ↔ y ∈ Year <$> rows df) →
             l = years df)).
Proof.
  destruct (states_spec df) as [Hs1 Hs2], (years_spec df) as [Hy1 Hy2].
  repeat split; try done; try apply Hs2; try apply Hy2.
  - intros l Hl Hel. apply (StronglySorted_strict_unique str_lt); [done..|].
    intros s. by rewrite Hel, Hs2.
  - intros l Hl Hel. apply (StronglySorted_strict_unique Z.lt); [done..|].
    intros y. by rewrite Hel, Hy2.
Qed.

Lemma years_nonempty (df : DataFrame) : rows df ≠ [] → years df ≠ [].
Proof.
  intros Hne Hnil. destruct (rows df) as [|r rs] eqn:E; [done|].
  assert (Year r ∈ years df) as Hin.
  { apply years_spec. rewrite E. set_solver. }
  rewrite Hnil in Hin. set_solver.
Qed.

(** C5.  For every loaded table with at least one row, the default year
    ([years[-1]]) is defined and is the maximum of the resolved years. *)
Theorem default_year_is_max (df : DataFrame) :
  rows df ≠ [] →
  ∃ y, default_year df = Ok y
       ∧ y ∈ years df
       ∧ ∀ y', y' ∈ years df → y' ≤ y.
Proof.
  intros Hne. apply years_nonempty in Hne.
  destruct (years_spec df) as [Hsorted _]. unfold default_year.
  destruct (years df) as [|y0 l0 _] using rev_ind; [done|].
  exists y0. rewrite py_getitem_last. split; [done|]. split; [set_solver|].
  intros y' [Hin| ->%list_elem_of_singleton]%elem_of_app; [|lia].
  apply Z.lt_le_incl.
  eapply (StronglySorted_app_1_elem_of Z.lt); [done..|set_solver].
Qed.

Lemma default_year_is_max_witness :
  rows ex_CA ≠ []
  ∧ ∃ y, default_year ex_CA = Ok y ∧ y ∈ years ex_CA ∧ ∀ y', y' ∈ years ex_CA → y' ≤ y.
Proof.
  assert (rows ex_CA ≠ []) as H by (simpl; discriminate).
  split; [exact H|]. exact (default_year_is_max ex_CA H).
Defined.

(** C10.  For a table without rows the resolved year list is empty and
    taking its last element raises [IndexError]: the default year is
    defined only for a table with at least one row. *)
Theorem default_year_empty_table (df : DataFrame) :
  rows df = [] → years df = [] ∧ default_year df = Raise IndexError.
Proof.
  intros E. unfold default_year, years. rewrite E. simpl.
  split; [done|]. apply py_getitem_nil.
Qed.

Lemma default_year_empty_table_witness :
  rows (mkDataFrame ["State"; "Year"; "Totals.Revenue"; "Totals.Expenditure"] []) = []
  ∧ default_year (mkDataFrame ["State"; "Year"; "Totals.Revenue"; "Totals.Expenditure"] [])
    = Raise IndexError.
Proof.
  split; [reflexivity|].
  exact (proj2 (default_year_empty_table
                  (mkDataFrame ["State"; "Year"; "Totals.Revenue"; "Totals.Expenditure"] [])
                  eq_refl)).
Defined.

(** ** [take] by positions *)

Lemma take_idx_seq_app {A} (l1 l2 : list A) :
  take_idx (seq (length l1) (length l2)) (l1 ++ l2) = l2.
Proof.
  unfold take_idx. revert l1. induction l2 as [|x l2 IH]; intros l1; simpl; [done|].
  rewrite list_lookup_middle by done. simpl. f_equal.
  specialize (IH (l1 ++ [x])). rewrite length_app in IH. simpl in IH.
  rewrite Nat.add_1_r, <- app_assoc in IH. exact IH.
Qed.

Lemma take_idx_seq {A} (l : list A) : take_idx (seq 0 (length l)) l = l.
Proof. apply (take_idx_seq_app [] l). Qed.

Lemma take_idx_Permutation {A} (idx : list nat) (l : list A) :
  idx ≡ₚ seq 0 (length l) → take_idx idx l ≡ₚ l.
Proof.
  intros H. pose proof (take_idx_seq l) as E. unfold take_idx in *.
  rewrite H. by rewrite E.
Qed.

Lemma take_idx_fmap {A B} (f : A → B) (idx : list nat) (l : list A) :
  f <$> take_idx idx l = take_idx idx (f <$> l).
Proof.
  unfold take_idx. induction idx as [|i idx IH]; simpl; [done|].
  rewrite list_lookup_fmap. destruct (l !! i); csimpl; by rewrite <- IH.
Qed.

Lemma take_idx_reverse {A} (idx : list nat) (l : list A) :
  take_idx (reverse idx) l = reverse (take_idx idx l).
Proof.
  unfold take_idx. induction idx as [|i idx IH]; simpl; [done|].
  rewrite reverse_cons, omap_app, IH. simpl.
  destruct (l !! i); simpl; [by rewrite reverse_cons|by rewrite app_nil_r].
Qed.

Lemma take_idx_mirror {A} (idx : list nat) (l : list A) :
  Forall (λ i, (i < length l)%nat) idx →
  take_idx ((λ j, (length l - 1 - j)%nat) <$> idx) l = take_idx idx (reverse l).
Proof.
  unfold take_idx. induction 1 as [|i idx Hi _ IH]; csimpl; [done|].
  rewrite IH, reverse_lookup by done.
  by replace (length l - 1 - i)%nat with (length l - S i)%nat by lia.
Qed.

Lemma Sorted_fmap_inv {A B} (f : A → B) (R : relation B) (l : list A) :
  Sorted R (f <$> l) → Sorted (λ x y, R (f x) (f y)) l.
Proof.
  induction l as [|x l IH]; intros H; [constructor|].
  inv H. constructor; [by apply IH|].
  destruct l; [constructor|]. constructor. by inv H3.
Qed.

(** ** The two sorting routines meet the contract *)

Lemma zip_seq_lookup (keys : list Z) (i : nat) (k : Z) :
  (i, k) ∈ zip (seq 0 (length keys)) keys → keys !! i = Some k.
Proof.
  intros [j Hj]%list_elem_of_lookup.
  apply lookup_zip_with_Some in Hj as (i' & k' & [= <- <-] & Hi & Hk).
  apply lookup_seq in Hi as [-> _]. done.
Qed.

Lemma take_idx_pairs (keys : list Z) (ps : list (nat * Z)) :
  Forall (λ p, keys !! fst p = Some (snd p)) ps →
  take_idx (fst <$> ps) keys = snd <$> ps.
Proof.
  unfold take_idx. induction 1 as [|[i k] ps Hik _ IH]; csimpl; [done|].
  simpl in Hik. rewrite Hik. csimpl. by rewrite IH.
Qed.

Lemma argsort_with_contract (cmp : Z → Z → bool) :
  (∀ x y, cmp x y = true → x ≤ y) →
  (∀ x y, cmp x y = false → y ≤ x) →
  argsort_contract (argsort_with cmp).
Proof.
  intros Htrue Hfalse keys. unfold argsort_with.
  set (c := λ p q : nat * Z, cmp (snd p) (snd q)).
  set (ps := sorted c (zip (seq 0 (length keys)) keys)).
  assert (ps ≡ₚ zip (seq 0 (length keys)) keys) as Hperm
    by apply sorted_Permutation.
  split.
  - rewrite Hperm. rewrite fst_zip; [done|]. by rewrite length_seq.
  - rewrite take_idx_pairs.
    + apply (Sorted_fmap snd (λ p q, snd p ≤ snd q) Z.le); [done|].
      apply sorted_Sorted; intros p q; [apply Htrue|apply Hfalse].
    + rewrite Hperm. apply Forall_forall. intros [i k]. apply zip_seq_lookup.
Qed.

Lemma argsort_stable_contract : argsort_contract argsort_stable.
Proof.
  apply argsort_with_contract; intros x y; [apply Z.leb_le|].
  rewrite Z.leb_gt. lia.
Qed.

Lemma argsort_reversing_contract : argsort_contract argsort_reversing.
Proof.
  apply argsort_with_contract; intros x y.
  - rewrite Z.ltb_lt. lia.
  - apply Z.ltb_ge.
Qed.

(** ** [sort_values] under the contract of [argsort] *)

Section sort_values_facts.
Variable argsort : list Z → list nat.
Hypothesis argsort_ok : argsort_contract argsort.

Lemma argsort_bounded (keys : list Z) :
  Forall (λ i, (i < length keys)%nat) (argsort keys).
Proof.
  destruct (argsort_ok keys) as [Hperm _]. rewrite Hperm.
  apply Forall_seq. lia.
Qed.

Lemma sort_values_Year_Permutation (rs : list Row) :
  sort_values_Year argsort rs ≡ₚ rs.
Proof.
  unfold sort_values_Year, nargsort. apply take_idx_Permutation.
  destruct (argsort_ok (Year <$> rs)) as [Hperm _].
  by rewrite Hperm, length_fmap.
Qed.

Lemma sort_values_Year_Sorted (rs : list Row) :
  StronglySorted Z.le (Year <$> sort_values_Year argsort rs).
Proof.
  unfold sort_values_Year, nargsort. rewrite take_idx_fmap.
  apply Sorted_StronglySorted; [apply _|]. apply argsort_ok.
Qed.

Lemma Series_sort_values_asc_Permutation (s : Series) :
  Series_sort_values argsort true s ≡ₚ s.
Proof.
  unfold Series_sort_values, nargsort. apply take_idx_Permutation.
  destruct (argsort_ok (snd <$> s)) as [Hperm _].
  by rewrite Hperm, length_fmap.
Qed.

Lemma Series_sort_values_asc_Sorted (s : Series) :
  StronglySorted Z.le (snd <$> Series_sort_values argsort true s).
Proof.
  unfold Series_sort_values, nargsort. rewrite take_idx_fmap.
  apply Sorted_StronglySorted; [apply _|]. apply argsort_ok.
Qed.

(** A descending sort is the reverse of an ascending sort of the reversed
    series. *)
Lemma Series_sort_values_desc (s : Series) :
  Series_sort_values argsort false s
  = reverse (Series_sort_values argsort true (reverse s)).
Proof.
  unfold Series_sort_values, nargsort.
  rewrite take_idx_reverse, fmap_reverse. f_equal.
  rewrite length_fmap. apply take_idx_mirror.
  rewrite <- (length_fmap snd s), <- (length_reverse (snd <$> s)).
  apply argsort_bounded.
Qed.

Lemma Series_sort_values_desc_Permutation (s : Series) :
  Series_sort_values argsort false s ≡ₚ s.
Proof.
  rewrite Series_sort_values_desc, reverse_Permutation.
  rewrite Series_sort_values_asc_Permutation. apply reverse_Permutation.
Qed.

Lemma Series_sort_values_desc_Sorted (s : Series) :
  StronglySorted (flip Z.le) (snd <$> Series_sort_values argsort false s).
Proof.
  rewrite Series_sort_values_desc, fmap_reverse.
  apply Sorted_StronglySorted; [intros x y z; unfold flip; lia|].
  apply Sorted_reverse, StronglySorted_Sorted, Series_sort_values_asc_Sorted.
Qed.

End sort_values_facts.

(** ** Running the chart functions *)


Lemma lookup_new (h : list object) (o : object) : (h ++ [o]) !! length h = Some o.
Proof. by apply list_lookup_middle. Qed.

Ltac heap_lookup :=
  repeat first [ eassumption | apply lookup_new | apply lookup_app_l_Some ].

Ltac run_step :=
  match goal with
  | |- context [ @lookup _ _ _ _ ?i ?h ] =>
      let E := fresh "E" in
      eassert (h !! i = Some _) as E by heap_lookup;
      rewrite E; clear E
  end.

Lemma set_new (h : list object) (o o' : object) :
  <[length h := o']> (h ++ [o]) = h ++ [o'].
Proof. rewrite insert_app_r_alt by done. by rewrite Nat.sub_diag. Qed.

Ltac run :=
  unfold bind, ret, new, get_frame, get_long, get_series, set_obj, emit;
  cbn [heap page rows columns];
  repeat (first [run_step | rewrite set_new]; cbn [heap page rows columns]).

(** The final session extends the initial one. *)
Ltac extends := rewrite <- ?app_assoc; by eexists _, _.

Lemma plot_expenditure_trends_extends (argsort : list Z → list nat) (l : loc)
    (state : string) (σ : session) (d : DataFrame) :
  heap σ !! l = Some (DataFrameObj d) →
  ∃ objs evs,
    plot_expenditure_trends argsort l state σ
    = Ok (tt, mkSession (heap σ ++ objs) (page σ ++ evs)).
Proof.
  intros Hl. unfold plot_expenditure_trends. run.
  case_decide; [by eexists [], _; rewrite app_nil_r|]. run.
  destruct (sort_values_Year _ _); extends.
Qed.

Lemma plot_revenue_vs_expenditure_extends (l : loc) (state : string) (year : Z)
    (σ : session) (d : DataFrame) :
  heap σ !! l = Some (DataFrameObj d) →
  ∃ objs evs,
    plot_revenue_vs_expenditure l state year σ
    = Ok (tt, mkSession (heap σ ++ objs) (page σ ++ evs)).
Proof.
  intros Hl. unfold plot_revenue_vs_expenditure. run.
  destruct (filter _ _); extends.
Qed.

Lemma plot_revenue_rankings_extends (argsort : list Z → list nat) (l : loc)
    (year : Z) (σ : session) (d : DataFrame) :
  heap σ !! l = Some (DataFrameObj d) →
  ∃ objs evs,
    plot_revenue_rankings argsort l year σ
    = Ok (tt, mkSession (heap σ ++ objs) (page σ ++ evs)).
Proof.
  intros Hl. unfold plot_revenue_rankings. run.
  destruct (filter _ _) eqn:E; [extends|]. run. extends.
Qed.

(** The long form after its Metric column has been relabelled. *)
Lemma set_Metric_fmap (g : string → string) (lf : list LongRow) :
  set_Metric lf (g <$> (Metric <$> lf))
  = (λ r, mkLongRow (lr_State r) (lr_Year r) (g (Metric r)) (Amount r)) <$> lf.
Proof.
  unfold set_Metric. rewrite <- list_fmap_compose, zip_with_fmap_r.
  by rewrite zip_with_diag.
Qed.

Lemma relabelled_melt (df : DataFrame) :
  set_Metric (melt df) (str_replace "Totals." "" <$> (Metric <$> melt df))
  = melt_var "Revenue" Totals_Revenue (rows df)
    ++ melt_var "Expenditure" Totals_Expenditure (rows df).
Proof.
  rewrite set_Metric_fmap. unfold melt, melt_var.
  rewrite fmap_app, <- !list_fmap_compose. done.
Qed.

Lemma filter_melt_var (name : string) (col : Row → Z) (state : string) (year : Z)
    (rs : list Row) :
  filter (λ r, lr_State r = state ∧ lr_Year r = year) (melt_var name col rs)
  = melt_var name col (filter (λ r, State r = state ∧ Year r = year) rs).
Proof.
  unfold melt_var. induction rs as [|r rs IH]; [done|]. csimpl.
  rewrite !filter_cons. simpl. rewrite IH. by case_decide.
Qed.

Lemma filtered_data_spec (df : DataFrame) (state : string) (year : Z) :
  filtered_data df state year
  = ((λ r, ("Revenue", Totals_Revenue r)) <$> rows_of_state_year df state year)
    ++ ((λ r, ("Expenditure", Totals_Expenditure r)) <$> rows_of_state_year df state year).
Proof.
  unfold filtered_data, rows_of_state_year.
  rewrite relabelled_melt, filter_app, !filter_melt_var, fmap_app.
  unfold melt_var. by rewrite <- !list_fmap_compose.
Qed.

Lemma filter_fst_same {B} (c : string) (f : Row → B) (rs : list Row) :
  filter (λ p : string * B, fst p = c) ((λ r, (c, f r)) <$> rs) = (λ r, (c, f r)) <$> rs.
Proof.
  induction rs as [|r rs IH]; [done|]. csimpl.
  rewrite filter_cons_True by done. by rewrite IH.
Qed.

Lemma filter_fst_other {B} (c c' : string) (f : Row → B) (rs : list Row) :
  c ≠ c' → filter (λ p : string * B, fst p = c) ((λ r, (c', f r)) <$> rs) = [].
Proof.
  intros Hne. induction rs as [|r rs IH]; [done|]. csimpl.
  rewrite filter_cons_False; [done|]. simpl. congruence.
Qed.

(** The bars drawn for a non-empty selection: one per metric, each the
    mean of the selected rows' values. *)
Lemma barplot_bars_filtered_data (df : DataFrame) (state : string) (year : Z) :
  rows_of_state_year df state year ≠ [] →
  barplot_bars (filtered_data df state year)
  = [("Revenue", mean (Totals_Revenue <$> rows_of_state_year df state year));
     ("Expenditure", mean (Totals_Expenditure <$> rows_of_state_year df state year))].
Proof.
  intros Hne. rewrite filtered_data_spec.
  set (ms := rows_of_state_year df state year) in *.
  unfold barplot_bars.
  assert (unique (fst <$> ((λ r, ("Revenue", Totals_Revenue r)) <$> ms)
                      ++ ((λ r, ("Expenditure", Totals_Expenditure r)) <$> ms))
          = ["Revenue"; "Expenditure"]) as ->.
  { rewrite fmap_app, <- !list_fmap_compose.
    destruct ms as [|r ms]; [done|]. unfold unique. csimpl. f_equal.
    rewrite unique_from_app_seen.
    2:{ intros x [y [-> _]]%list_elem_of_fmap. set_solver. }
    csimpl. f_equal. apply unique_from_seen.
    intros x [y [-> _]]%list_elem_of_fmap. set_solver. }
  csimpl. rewrite !filter_app.
  rewrite !filter_fst_same, !filter_fst_other by done.
  rewrite app_nil_r. simpl. by rewrite <- !list_fmap_compose.
Qed.




Lemma plot_expenditure_trends_missing (argsort : list Z → list nat) (l : loc)
    (state : string) (σ : session) (d : DataFrame) :
  heap σ !! l = Some (DataFrameObj d) →
  health_col ∉ columns d ∨ edu_col ∉ columns d →
  plot_expenditure_trends argsort l state σ
  = Ok (tt, mkSession (heap σ)
              (page σ ++ [st_error "Error: Required expenditure columns not found in the dataset."])).
Proof.
  intros Hl Hmiss. unfold plot_expenditure_trends. run.
  by rewrite decide_True.
Qed.


Lemma plot_expenditure_trends_charts (argsort : list Z → list nat) (l : loc)
    (state : string) (σ : session) (d : DataFrame) :
  argsort_contract argsort →
  heap σ !! l = Some (DataFrameObj d) →
  health_col ∈ columns d → edu_col ∈ columns d →
  rows_of_state d state ≠ [] →
  ∃ objs,
    plot_expenditure_trends argsort l state σ
    = Ok (tt, mkSession (heap σ ++ objs)
                (page σ
                 ++ [st_pyplot
                       (mkFigure None
                          [mkAxes ("Health Expenditure Trend for " +:+ state)
                             (sns_lineplot ((λ r, (Year r, Health_Total r))
                                              <$> state_data argsort d state))]);
                     st_pyplot
                       (mkFigure None
                          [mkAxes ("Education Expenditure Trend for " +:+ state)
                             (sns_lineplot ((λ r, (Year r, Education_Total r))
                                              <$> state_data argsort d state))])])).
Proof.
  intros Hsort Hl Hh He Hsome. unfold plot_expenditure_trends. run.
  rewrite decide_False by tauto. run.
  unfold state_data, rows_of_state in *.
  destruct (sort_values_Year _ _) as [|r rs] eqn:E.
  - pose proof (sort_values_Year_Permutation argsort Hsort
                  (filter (λ r, State r = state) (rows d))) as Hperm.
    rewrite E in Hperm. apply Permutation_nil in Hperm. done.
  - rewrite <- ?app_assoc. by eexists.
Qed.


Lemma plot_revenue_rankings_chart (argsort : list Z → list nat) (l : loc)
    (year : Z) (σ : session) (d : DataFrame) :
  heap σ !! l = Some (DataFrameObj d) →
  rows_of_year d year ≠ [] →
  ∃ objs,
    plot_revenue_rankings argsort l year σ
    = Ok (tt, mkSession (heap σ ++ objs)
                (page σ
                 ++ [st_pyplot
                       (mkFigure (Some ("State Revenue Rankings for " +:+ str_of_Z year))
                          [mkAxes "Top 10 States by Revenue Collection"
                             (sns_barplot (top_10_states argsort d year));
                           mkAxes "Bottom 10 States by Revenue Collection"
                             (sns_barplot (bottom_10_states argsort d year))])])).
Proof.
  intros Hl Hsome. unfold plot_revenue_rankings. run.
  unfold top_10_states, bottom_10_states, state_revenues, rows_of_year in *.
  destruct (filter _ _) as [|r rs] eqn:E; [done|]. run.
  rewrite <- ?app_assoc. by eexists.
Qed.

(** ** The Revenue-vs-Expenditure chart *)

Lemma mean_singleton (x : Z) : Z.abs x ≤ 2 ^ 53 → mean [x] = Some (inject_Z x).
Proof.
  intros H. rewrite mean_in_range by (unfold Zsum; simpl; lia).
  unfold Zsum. simpl. rewrite Z.add_0_r. f_equal. by apply round64_inject_Z.
Qed.

Lemma amounts_in_range_selection (d : DataFrame) (state : string) (year : Z) :
  amounts_in_range d →
  Zsum (Z.abs <$> (Totals_Revenue <$> rows_of_state_year d state year)) ≤ 2 ^ 53
  ∧ Zsum (Z.abs <$> (Totals_Expenditure <$> rows_of_state_year d state year)) ≤ 2 ^ 53.
Proof.
  intros [Hr He]. unfold rows_of_state_year. split.
  - etransitivity; [apply Zsum_abs_filter; apply _|done].
  - etransitivity; [apply Zsum_abs_filter; apply _|done].
Qed.


Lemma base_columns_ex_CA : base_columns ex_CA.
Proof. repeat split; apply (bool_decide_unpack _); by vm_compute. Qed.

Lemma base_columns_ex_dup : base_columns ex_dup.
Proof. repeat split; apply (bool_decide_unpack _); by vm_compute. Qed.

Lemma amounts_in_range_ex_CA : amounts_in_range ex_CA.
Proof. split; by vm_compute. Qed.




(** ** The Expenditure Trends chart *)

(** C3 (as amended).  On a table with the base columns, whatever sorting
    routine meets numpy's contract, the rows used for the trend charts are
    the input rows of the selected state, each exactly once, and their
    Year column is non-decreasing (rows of equal Year come in an order the
    sorting routine chooses); with both detail columns present and at
    least one such row, the two line charts are drawn from these rows. *)
Theorem expenditure_trends_rows (argsort : list Z → list nat) (l : loc)
    (state : string) (σ : session) (d : DataFrame) :
  argsort_contract argsort →
  base_columns d →
  heap σ !! l = Some (DataFrameObj d) →
  state_data argsort d state ≡ₚ rows_of_state d state
  ∧ (∀ r, r ∈ state_data argsort d state ↔ r ∈ rows d ∧ State r = state)
  ∧ StronglySorted Z.le (Year <$> state_data argsort d state)
  ∧ (health_col ∈ columns d → edu_col ∈ columns d → rows_of_state d state ≠ [] →
     ∃ objs,
       plot_expenditure_trends argsort l state σ
       = Ok (tt, mkSession (heap σ ++ objs)
                   (page σ
                    ++ [st_pyplot
                          (mkFigure None
                             [mkAxes ("Health Expenditure Trend for " +:+ state)
                                (sns_lineplot ((λ r, (Year r, Health_Total r))
                                                 <$> state_data argsort d state))]);
                        st_pyplot
                          (mkFigure None
                             [mkAxes ("Education Expenditure Trend for " +:+ state)
                                (sns_lineplot ((λ r, (Year r, Education_Total r))
                                                 <$> state_data argsort d state))])]))).
Proof.
  intros Hsort _ Hl.
  assert (state_data argsort d state ≡ₚ rows_of_state d state) as Hperm
    by by apply sort_values_Year_Permutation.
  split; [done|]. split.
  { intros r. rewrite Hperm. unfold rows_of_state.
    rewrite list_elem_of_filter. tauto. }
  split; [by apply sort_values_Year_Sorted|].
  intros Hh He Hsome. by apply plot_expenditure_trends_charts.
Qed.

Lemma expenditure_trends_rows_witness :
  argsort_contract argsort_stable
  ∧ heap (session0 ex_CA) !! 0%nat = Some (DataFrameObj ex_CA)
  ∧ state_data argsort_stable ex_CA "CA" ≡ₚ rows_of_state ex_CA "CA"
  ∧ StronglySorted Z.le (Year <$> state_data argsort_stable ex_CA "CA").
Proof.
  assert (heap (session0 ex_CA) !! 0%nat = Some (DataFrameObj ex_CA)) as H1
    by reflexivity.
  split; [exact argsort_stable_contract|]. split; [exact H1|].
  pose proof (expenditure_trends_rows argsort_stable 0%nat "CA" (session0 ex_CA)
                ex_CA argsort_stable_contract base_columns_ex_CA H1)
    as (Hp & _ & Hs & _).
  exact (conj Hp Hs).
Defined.

Lemma base_columns_ex_ties : base_columns ex_ties.
Proof. repeat split; apply (bool_decide_unpack _); by vm_compute. Qed.

(** C3, as stated, fails.  The table has four rows of one state, in input
    order two of 2020 and then two of 2019.  A stable sort would give the
    two rows of 2019 and then the two of 2020, each pair in input order.
    The sorting routine here, which meets the contract, gives each pair in
    the opposite order: the order in which the sorting network of numpy's
    vectorised quicksort leaves four such keys (it compares the first key
    with the fourth and the second with the third, and exchanges both
    pairs). *)
Lemma expenditure_trends_ties_not_stable :
  argsort_contract argsort_reversing
  ∧ base_columns ex_ties
  ∧ rows_of_state_stable ex_ties "CA"
    = [mkRow "CA" 2019 90 70 6 3; mkRow "CA" 2019 40 10 8 2;
       mkRow "CA" 2020 100 80 7 5; mkRow "CA" 2020 50 20 9 4]
  ∧ state_data argsort_reversing ex_ties "CA"
    = [mkRow "CA" 2019 40 10 8 2; mkRow "CA" 2019 90 70 6 3;
       mkRow "CA" 2020 50 20 9 4; mkRow "CA" 2020 100 80 7 5]
  ∧ state_data argsort_reversing ex_ties "CA" ≠ rows_of_state_stable ex_ties "CA".
Proof.
  split; [exact argsort_reversing_contract|].
  split; [exact base_columns_ex_ties|].
  split; [reflexivity|]. split; [reflexivity|]. vm_compute. discriminate.
Qed.

(** C6.  When the health-expenditure column or the education-expenditure
    column is absent from the header, [plot_expenditure_trends] reports
    one error, whatever the selected state and whether or not it has rows;
    it draws nothing, emits no warning, creates no object and returns
    normally, so the views that follow run on the same session. *)
Theorem expenditure_trends_missing_column (argsort : list Z → list nat) (l : loc)
    (state : string) (σ : session) (d : DataFrame) :
  heap σ !! l = Some (DataFrameObj d) →
  health_col ∉ columns d ∨ edu_col ∉ columns d →
  plot_expenditure_trends argsort l state σ
  = Ok (tt, mkSession (heap σ)
              (page σ ++ [st_error "Error: Required expenditure columns not found in the dataset."])).
Proof. apply plot_expenditure_trends_missing. Qed.

Lemma expenditure_trends_missing_column_witness :
  plot_expenditure_trends argsort_stable 0%nat "CA" (session0 ex_no_health)
  = Ok (tt, mkSession [DataFrameObj ex_no_health]
              [st_error "Error: Required expenditure columns not found in the dataset."]).
Proof.
  assert (heap (session0 ex_no_health) !! 0%nat = Some (DataFrameObj ex_no_health))
    as H1 by reflexivity.
  assert (health_col ∉ columns ex_no_health ∨ edu_col ∉ columns ex_no_health) as H2.
  { left. apply (bool_decide_unpack _). by vm_compute. }
  exact (expenditure_trends_missing_column argsort_stable 0%nat "CA"
           (session0 ex_no_health) ex_no_health H1 H2).
Defined.

(** ** Empty selections and the loaded table *)



Lemma unchanged_extends (σ : session) (objs : list object) (evs : list event) :
  unchanged σ (mkSession (heap σ ++ objs) evs).
Proof. intros l o Hl. simpl. by apply lookup_app_l_Some. Qed.

(** C9.  Each chart function, called on the location of the loaded table,
    returns normally and leaves the table as it was, and with it every
    object that existed before the call: what the function builds or
    updates are new objects. *)
Theorem chart_functions_leave_table_unchanged (argsort : list Z → list nat) (l : loc)
    (state : string) (year : Z) (σ : session) (d : DataFrame) :
  heap σ !! l = Some (DataFrameObj d) →
  (∃ σ', plot_revenue_vs_expenditure l state year σ = Ok (tt, σ')
         ∧ heap σ' !! l = Some (DataFrameObj d) ∧ unchanged σ σ')
  ∧ (∃ σ', plot_expenditure_trends argsort l state σ = Ok (tt, σ')
           ∧ heap σ' !! l = Some (DataFrameObj d) ∧ unchanged σ σ')
  ∧ (∃ σ', plot_revenue_rankings argsort l year σ = Ok (tt, σ')
           ∧ heap σ' !! l = Some (DataFrameObj d) ∧ unchanged σ σ').
Proof.
  intros Hl. split; [|split].
  - destruct (plot_revenue_vs_expenditure_extends l state year σ d Hl)
      as (objs & evs & ->).
    eexists. split; [done|]. split; [|apply unchanged_extends].
    by apply unchanged_extends.
  - destruct (plot_expenditure_trends_extends argsort l state σ d Hl)
      as (objs & evs & ->).
    eexists. split; [done|]. split; [|apply unchanged_extends].
    by apply unchanged_extends.
  - destruct (plot_revenue_rankings_extends argsort l year σ d Hl)
      as (objs & evs & ->).
    eexists. split; [done|]. split; [|apply unchanged_extends].
    by apply unchanged_extends.
Qed.

Lemma chart_functions_leave_table_unchanged_witness :
  (∃ σ', plot_revenue_vs_expenditure 0%nat "CA" 2020 (session0 ex_dup) = Ok (tt, σ')
         ∧ heap σ' !! 0%nat = Some (DataFrameObj ex_dup))
  ∧ (∃ σ', plot_expenditure_trends argsort_stable 0%nat "CA" (session0 ex_dup) = Ok (tt, σ')
           ∧ heap σ' !! 0%nat = Some (DataFrameObj ex_dup))
  ∧ (∃ σ', plot_revenue_rankings argsort_stable 0%nat 2020 (session0 ex_dup) = Ok (tt, σ')
           ∧ heap σ' !! 0%nat = Some (DataFrameObj ex_dup)).
Proof.
  assert (heap (session0 ex_dup) !! 0%nat = Some (DataFrameObj ex_dup)) as H1
    by reflexivity.
  destruct (chart_functions_leave_table_unchanged argsort_stable 0%nat "CA" 2020
              (session0 ex_dup) ex_dup H1)
    as ((s1 & R1 & L1 & _) & (s2 & R2 & L2 & _) & (s3 & R3 & L3 & _)).
  split; [by exists s1|]. split; [by exists s2|by exists s3].
Defined.

(** ** The Revenue Rankings chart *)

Lemma groupby_State_sum_keys (col : Row → Z) (rs : list Row) :
  fst <$> groupby_State_sum col rs = sorted String.leb (unique (State <$> rs)).
Proof.
  unfold groupby_State_sum. rewrite <- list_fmap_compose. apply list_fmap_id.
Qed.

Lemma groupby_State_sum_NoDup (col : Row → Z) (rs : list Row) :
  NoDup (fst <$> groupby_State_sum col rs).
Proof.
  rewrite groupby_State_sum_keys, sorted_Permutation. apply NoDup_unique.
Qed.

Lemma groupby_State_sum_elem (col : Row → Z) (rs : list Row) (s : string) (v : Z) :
  (s, v) ∈ groupby_State_sum col rs
  ↔ s ∈ State <$> rs ∧ v = sum_int64 (col <$> filter (λ r, State r = s) rs).
Proof.
  unfold groupby_State_sum. split.
  - intros (s' & [= -> ->] & Hin)%list_elem_of_fmap.
    by rewrite sorted_Permutation, list_elem_of_unique in Hin.
  - intros [Hin ->]. apply list_elem_of_fmap. exists s. split; [done|].
    by rewrite sorted_Permutation, list_elem_of_unique.
Qed.

Lemma groupby_State_sum_length (col : Row → Z) (rs : list Row) :
  length (groupby_State_sum col rs) = length (unique (State <$> rs)).
Proof. unfold groupby_State_sum. by rewrite length_fmap, sorted_length. Qed.

Lemma StronglySorted_take {A} (R : relation A) (n : nat) (l : list A) :
  StronglySorted R l → StronglySorted R (take n l).
Proof.
  intros H. rewrite <- (take_drop n l) in H. by apply StronglySorted_app_1_l in H.
Qed.

Lemma StronglySorted_head_least {A} (R : relation A) `{!Reflexive R} (l : list A) (x y : A) :
  StronglySorted R l → l !! 0%nat = Some x → y ∈ l → R x y.
Proof.
  intros Hl Hx Hy. destruct l as [|x' l]; [done|]. simplify_eq/=.
  apply StronglySorted_cons in Hl as [Hall _].
  apply elem_of_cons in Hy as [->|Hy]; [done|].
  rewrite Forall_forall in Hall. by apply Hall.
Qed.

Section rankings_facts.
Variable argsort : list Z → list nat.
Hypothesis argsort_ok : argsort_contract argsort.
Variables (d : DataFrame) (year : Z).

Lemma state_revenues_Permutation :
  state_revenues argsort d year
  ≡ₚ groupby_State_sum Totals_Revenue (rows_of_year d year).
Proof. by apply Series_sort_values_desc_Permutation. Qed.

Lemma state_revenues_NoDup : NoDup (fst <$> state_revenues argsort d year).
Proof. rewrite state_revenues_Permutation. apply groupby_State_sum_NoDup. Qed.

Lemma state_revenues_Sorted :
  StronglySorted (flip Z.le) (snd <$> state_revenues argsort d year).
Proof. by apply Series_sort_values_desc_Sorted. Qed.

Lemma state_revenues_length :
  length (state_revenues argsort d year)
  = length (unique (State <$> rows_of_year d year)).
Proof. by rewrite state_revenues_Permutation, groupby_State_sum_length. Qed.

Lemma bottom_10_states_Permutation :
  bottom_10_states argsort d year
  ≡ₚ drop (length (state_revenues argsort d year) - 10) (state_revenues argsort d year).
Proof. by apply Series_sort_values_asc_Permutation. Qed.

Lemma bottom_10_states_Sorted :
  StronglySorted Z.le (snd <$> bottom_10_states argsort d year).
Proof. by apply Series_sort_values_asc_Sorted. Qed.

Lemma top_10_states_Sorted :
  StronglySorted (flip Z.le) (snd <$> top_10_states argsort d year).
Proof.
  unfold top_10_states, head. rewrite fmap_take.
  apply StronglySorted_take, state_revenues_Sorted.
Qed.

(** The first entry of the top panel has the largest sum of all states. *)
Lemma top_10_states_first (t p : string * Z) :
  top_10_states argsort d year !! 0%nat = Some t →
  p ∈ state_revenues argsort d year → snd p ≤ snd t.
Proof.
  unfold top_10_states, head. intros Ht Hp.
  assert (state_revenues argsort d year !! 0%nat = Some t) as Ht'.
  { destruct (state_revenues argsort d year); done. }
  apply (StronglySorted_head_least (flip Z.le) (snd <$> state_revenues argsort d year)
           (snd t) (snd p)).
  - apply state_revenues_Sorted.
  - rewrite list_lookup_fmap. by rewrite Ht'.
  - by apply list_elem_of_fmap_2.
Qed.

(** The first entry of the bottom panel has the smallest sum of all
    states. *)
Lemma bottom_10_states_first (b p : string * Z) :
  bottom_10_states argsort d year !! 0%nat = Some b →
  p ∈ state_revenues argsort d year → snd b ≤ snd p.
Proof.
  intros Hb Hp.
  set (sr := state_revenues argsort d year) in *.
  set (k := (length sr - 10)%nat).
  assert (bottom_10_states argsort d year ≡ₚ drop k sr) as Hperm
    by apply bottom_10_states_Permutation.
  assert (∀ q, q ∈ drop k sr → snd b ≤ snd q) as Hlast.
  { intros q Hq. rewrite <- Hperm in Hq.
    apply (StronglySorted_head_least Z.le (snd <$> bottom_10_states argsort d year)
             (snd b) (snd q)).
    - apply bottom_10_states_Sorted.
    - rewrite list_lookup_fmap. by rewrite Hb.
    - by apply list_elem_of_fmap_2. }
  rewrite <- (take_drop k sr) in Hp.
  apply elem_of_app in Hp as [Hp|Hp]; [|by apply Hlast].
  assert (b ∈ drop k sr) as Hbin.
  { rewrite <- Hperm. by eapply list_elem_of_lookup_2. }
  pose proof state_revenues_Sorted as Hs. fold sr in Hs.
  rewrite <- (take_drop k sr), fmap_app in Hs.
  apply (StronglySorted_app_1_elem_of (flip Z.le) _ _ (snd p) (snd b)) in Hs;
    [done|by apply list_elem_of_fmap_2..].
Qed.

(** With at least 20 states the two panels show different states. *)
Lemma top_bottom_disjoint (s : string) :
  (20 ≤ length (state_revenues argsort d year))%nat →
  s ∈ fst <$> top_10_states argsort d year →
  s ∉ fst <$> bottom_10_states argsort d year.
Proof.
  intros Hn Htop Hbot. rewrite bottom_10_states_Permutation in Hbot.
  unfold top_10_states, head in Htop.
  set (sr := state_revenues argsort d year) in *.
  assert (10 + (length sr - 20) = length sr - 10)%nat as Hk by lia.
  pose proof state_revenues_NoDup as Hnd. fold sr in Hnd.
  rewrite <- (take_drop 10 sr), fmap_app in Hnd.
  apply NoDup_app in Hnd as (_ & Hdis & _).
  apply (Hdis s Htop).
  rewrite <- Hk, <- drop_drop, fmap_drop in Hbot.
  by apply (subseteq_drop (length sr - 20)).
Qed.

End rankings_facts.

(** Within the 64-bit range the sums of the ranking are the exact sums. *)
Lemma revenue_group_in_range (d : DataFrame) (year : Z) (s : string) :
  revenue_in_range d →
  sum_int64 (Totals_Revenue <$> filter (λ r, State r = s) (rows_of_year d year))
  = Zsum (Totals_Revenue <$> filter (λ r, State r = s) (rows_of_year d year)).
Proof.
  intros Hrange. apply sum_int64_exact. unfold revenue_in_range, rows_of_year in *.
  eapply Z.le_lt_trans; [|exact Hrange].
  etransitivity; [apply Zsum_abs_filter; apply _|].
  apply Zsum_abs_filter; apply _.
Qed.

Lemma state_revenues_elem (argsort : list Z → list nat) (d : DataFrame) (year : Z)
    (s : string) (v : Z) :
  argsort_contract argsort →
  revenue_in_range d →
  (s, v) ∈ state_revenues argsort d year
  ↔ s ∈ State <$> rows_of_year d year
    ∧ v = Zsum (Totals_Revenue <$> filter (λ r, State r = s) (rows_of_year d year)).
Proof.
  intros Hsort Hrange.
  rewrite (state_revenues_Permutation argsort Hsort), groupby_State_sum_elem.
  by rewrite revenue_group_in_range.
Qed.

Lemma base_columns_ex_25 : base_columns ex_25.
Proof. repeat split; apply (bool_decide_unpack _); by vm_compute. Qed.

Lemma revenue_in_range_ex_25 : revenue_in_range ex_25.
Proof. by vm_compute. Qed.

Lemma revenue_in_range_ex_dup : revenue_in_range ex_dup.
Proof. by vm_compute. Qed.

(** C2.  For a table with the base columns whose revenues add up, in
    absolute value, to less than 2^63 (so that no 64-bit sum wraps
    around), and a selected year: [state_revenues] has one entry per state
    that has a row of that year, whose value is the sum of Totals.Revenue
    over the state's rows of that year, and it is in descending order of
    that sum; the top panel is its first 10 entries; the bottom panel has
    the entries of its last 10, in ascending order, so that its first
    entry has the smallest sum of all states; when the year has rows, the
    chart is drawn from these two lists. *)
Theorem revenue_rankings_transform (argsort : list Z → list nat) (l : loc)
    (year : Z) (σ : session) (d : DataFrame) :
  argsort_contract argsort →
  base_columns d →
  revenue_in_range d →
  heap σ !! l = Some (DataFrameObj d) →
  NoDup (fst <$> state_revenues argsort d year)
  ∧ (∀ s v, (s, v) ∈ state_revenues argsort d year
            ↔ s ∈ State <$> rows_of_year d year
              ∧ v = Zsum (Totals_Revenue
                            <$> filter (λ r, State r = s) (rows_of_year d year)))
  ∧ StronglySorted (flip Z.le) (snd <$> state_revenues argsort d year)
  ∧ top_10_states argsort d year = take 10 (state_revenues argsort d year)
  ∧ bottom_10_states argsort d year
    ≡ₚ drop (length (state_revenues argsort d year) - 10)
         (state_revenues argsort d year)
  ∧ StronglySorted Z.le (snd <$> bottom_10_states argsort d year)
  ∧ (∀ b p, bottom_10_states argsort d year !! 0%nat = Some b →
            p ∈ state_revenues argsort d year → snd b ≤ snd p)
  ∧ (rows_of_year d year ≠ [] →
     ∃ objs,
       plot_revenue_rankings argsort l year σ
       = Ok (tt, mkSession (heap σ ++ objs)
                   (page σ
                    ++ [st_pyplot
                          (mkFigure (Some ("State Revenue Rankings for " +:+ str_of_Z year))
                             [mkAxes "Top 10 States by Revenue Collection"
                                (sns_barplot (top_10_states argsort d year));
                              mkAxes "Bottom 10 States by Revenue Collection"
                                (sns_barplot (bottom_10_states argsort d year))])]))).
Proof.
  intros Hsort _ Hrange Hl.
  split; [by apply state_revenues_NoDup|].
  split; [intros s v; by apply state_revenues_elem|].
  split; [by apply state_revenues_Sorted|].
  split; [done|].
  split; [by apply bottom_10_states_Permutation|].
  split; [by apply bottom_10_states_Sorted|].
  split; [intros b p; by apply bottom_10_states_first|].
  intros Hsome. by apply plot_revenue_rankings_chart.
Qed.

Lemma revenue_rankings_transform_witness :
  state_revenues argsort_stable ex_dup 2020 = [("CA", 150); ("NY", 60)]
  ∧ StronglySorted (flip Z.le) (snd <$> state_revenues argsort_stable ex_dup 2020)
  ∧ StronglySorted Z.le (snd <$> bottom_10_states argsort_stable ex_dup 2020).
Proof.
  assert (heap (session0 ex_dup) !! 0%nat = Some (DataFrameObj ex_dup)) as H1
    by reflexivity.
  pose proof (revenue_rankings_transform argsort_stable 0%nat 2020 (session0 ex_dup)
                ex_dup argsort_stable_contract base_columns_ex_dup
                revenue_in_range_ex_dup H1)
    as (_ & _ & Hdesc & _ & _ & Hasc & _).
  split; [reflexivity|]. exact (conj Hdesc Hasc).
Defined.

(** C8.  For a table with the base columns whose revenues add up, in
    absolute value, to less than 2^63: every entry of the two panels is a
    state with a row of the selected year together with the sum of
    Totals.Revenue over its rows of that year.  The top panel is in
    descending order of that sum and has at most 10 entries and at most as
    many as there are distinct states with a row of the selected year; the
    bottom panel is in ascending order; with at least 20 such states no
    state is in both panels.  The first entry of the top panel has the
    largest sum, the first entry of the bottom panel the smallest. *)
Theorem revenue_rankings_panels (argsort : list Z → list nat) (d : DataFrame) (year : Z) :
  argsort_contract argsort →
  base_columns d →
  revenue_in_range d →
  (∀ s v, (s, v) ∈ top_10_states argsort d year
          ∨ (s, v) ∈ bottom_10_states argsort d year →
          s ∈ State <$> rows_of_year d year
          ∧ v = Zsum (Totals_Revenue
                        <$> filter (λ r, State r = s) (rows_of_year d year)))
  ∧ StronglySorted (flip Z.le) (snd <$> top_10_states argsort d year)
  ∧ (length (top_10_states argsort d year) ≤ 10)%nat
  ∧ (length (top_10_states argsort d year)
     ≤ length (unique (State <$> rows_of_year d year)))%nat
  ∧ StronglySorted Z.le (snd <$> bottom_10_states argsort d year)
  ∧ ((20 ≤ length (unique (State <$> rows_of_year d year)))%nat →
     ∀ s, s ∈ fst <$> top_10_states argsort d year →
          s ∉ fst <$> bottom_10_states argsort d year)
  ∧ (∀ t p, top_10_states argsort d year !! 0%nat = Some t →
            p ∈ state_revenues argsort d year → snd p ≤ snd t)
  ∧ (∀ b p, bottom_10_states argsort d year !! 0%nat = Some b →
            p ∈ state_revenues argsort d year → snd b ≤ snd p).
Proof.
  intros Hsort _ Hrange.
  pose proof (state_revenues_length argsort Hsort d year) as Hlen.
  split.
  { intros s v Hin. apply (state_revenues_elem argsort d year s v Hsort Hrange).
    destruct Hin as [Hin|Hin].
    - by apply (subseteq_take 10).
    - rewrite (bottom_10_states_Permutation argsort Hsort) in Hin.
      by eapply subseteq_drop. }
  split; [by apply top_10_states_Sorted|].
  split; [unfold top_10_states, head; rewrite length_take; lia|].
  split; [unfold top_10_states, head; rewrite length_take; lia|].
  split; [by apply bottom_10_states_Sorted|].
  split.
  { intros Hn s. apply top_bottom_disjoint; [done|]. by rewrite Hlen. }
  split; [intros t p; by apply top_10_states_first|].
  intros b p; by apply bottom_10_states_first.
Qed.

(** Twenty-five states with distinct sums: the panels share no state, the
    top panel starts with the largest sum and the bottom panel with the
    smallest. *)
Lemma revenue_rankings_panels_witness :
  top_10_states argsort_stable ex_25 2022 !! 0%nat = Some ("S25", 250)
  ∧ bottom_10_states argsort_stable ex_25 2022 !! 0%nat = Some ("S1", 10)
  ∧ (length (top_10_states argsort_stable ex_25 2022) ≤ 10)%nat
  ∧ (∀ s, s ∈ fst <$> top_10_states argsort_stable ex_25 2022 →
          s ∉ fst <$> bottom_10_states argsort_stable ex_25 2022).
Proof.
  pose proof (revenue_rankings_panels argsort_stable ex_25 2022 argsort_stable_contract
                base_columns_ex_25 revenue_in_range_ex_25)
    as (_ & _ & Hlen & _ & _ & Hdis & _).
  assert (20 ≤ length (unique (State <$> rows_of_year ex_25 2022)))%nat as Hn
    by (vm_compute; lia).
  split; [by vm_compute|]. split; [by vm_compute|].
  split; [exact Hlen|exact (Hdis Hn)].
Defined.

(** * Further properties of the chart functions *)

(** ** Lists ordered by a key without repetition *)

Lemma NoDup_fmap_inj_on {A B} (f : A → B) (l : list A) (x y : A) :
  NoDup (f <$> l) → x ∈ l → y ∈ l → f x = f y → x = y.
Proof.
  induction l as [|z l IH]; csimpl; intros Hnd Hx Hy Hxy; [by inv Hx|].
  apply NoDup_cons in Hnd as [Hz Hnd].
  apply elem_of_cons in Hx as [->|Hx], Hy as [->|Hy]; [done| | |by apply IH].
  - destruct Hz. rewrite Hxy. by apply list_elem_of_fmap_2.
  - destruct Hz. rewrite <- Hxy. by apply list_elem_of_fmap_2.
Qed.

Lemma StronglySorted_fmap_inv {A B} (f : A → B) (R : relation B) (l : list A) :
  StronglySorted R (f <$> l) → StronglySorted (λ x y, R (f x) (f y)) l.
Proof.
  induction l as [|x l IH]; csimpl; intros H; [constructor|].
  apply StronglySorted_cons in H as [Hall H]. constructor; [by apply IH|].
  by rewrite Forall_fmap in Hall.
Qed.

(** Two arrangements of the same entries, both ordered by a key that no
    two entries share, are the same list. *)
Lemma sorted_by_key_unique {A} (f : A → Z) (R : relation Z) (l1 l2 : list A) :
  (∀ a b, R a b → R b a → a = b) →
  NoDup (f <$> l1) → l1 ≡ₚ l2 →
  StronglySorted R (f <$> l1) → StronglySorted R (f <$> l2) → l1 = l2.
Proof.
  intros Hanti Hnd Hperm H1 H2.
  apply (StronglySorted_unique_strong (λ x y, R (f x) (f y)));
    [|by apply StronglySorted_fmap_inv..|done].
  intros x y Hx Hy Hxy Hyx. apply (NoDup_fmap_inj_on f l1); [done..| |by apply Hanti].
  by rewrite Hperm.
Qed.

Lemma filter_none {A} (P : A → Prop) `{∀ x, Decision (P x)} (l : list A) :
  (∀ x, x ∈ l → ¬ P x) → filter P l = [].
Proof.
  intros Hno. destruct (filter P l) as [|y k] eqn:E; [done|].
  assert (y ∈ filter P l) as [Hy Hin]%list_elem_of_filter by (rewrite E; left).
  by destruct (Hno y Hin).
Qed.

Lemma Zsum_app (l1 l2 : list Z) : Zsum (l1 ++ l2) = Zsum l1 + Zsum l2.
Proof. unfold Zsum. induction l1 as [|x l1 IH]; simpl; lia. Qed.

Lemma Zsum_Permutation (l1 l2 : list Z) : l1 ≡ₚ l2 → Zsum l1 = Zsum l2.
Proof. unfold Zsum. induction 1; simpl; lia. Qed.

(** ** What the Revenue-vs-Expenditure chart is drawn from *)

(** X1.  The observations handed to [sns.barplot] are the revenues of the
    matching rows, in table order and labelled "Revenue", followed by
    their expenditures, labelled "Expenditure": two observations per
    matching row, and the "Totals." prefix is gone from every label. *)
Theorem revenue_vs_expenditure_observations (d : DataFrame) (state : string) (year : Z) :
  filtered_data d state year
  = ((λ r, ("Revenue", Totals_Revenue r)) <$> rows_of_state_year d state year)
    ++ ((λ r, ("Expenditure", Totals_Expenditure r)) <$> rows_of_state_year d state year)
  ∧ length (filtered_data d state year)
    = (2 * length (rows_of_state_year d state year))%nat
  ∧ ∀ p, p ∈ filtered_data d state year → fst p = "Revenue" ∨ fst p = "Expenditure".
Proof.
  pose proof (filtered_data_spec d state year) as E. split; [done|]. split.
  - rewrite E, length_app, !length_fmap. lia.
  - intros p. rewrite E, elem_of_app, !list_elem_of_fmap.
    intros [(r & -> & _)|(r & -> & _)]; [by left|by right].
Qed.

Lemma rows_of_state_year_unique (d : DataFrame) (r : Row) :
  NoDup ((λ r, (State r, Year r)) <$> rows d) → r ∈ rows d →
  rows_of_state_year d (State r) (Year r) = [r].
Proof.
  unfold rows_of_state_year. induction (rows d) as [|x l IH]; csimpl; intros Hnd Hr;
    [by inv Hr|].
  apply NoDup_cons in Hnd as [Hx Hnd]. rewrite filter_cons.
  destruct (decide (State x = State r ∧ Year x = Year r)) as [[Hs Hy]|Hne].
  - assert (filter (λ r0, State r0 = State r ∧ Year r0 = Year r) l = []) as ->.
    { apply filter_none. intros y Hin [Hs' Hy'].
      destruct Hx. rewrite Hs, Hy, <- Hs', <- Hy'.
      by apply (list_elem_of_fmap_2 (λ r, (State r, Year r))). }
    apply elem_of_cons in Hr as [->|Hr]; [done|].
    destruct Hx. rewrite Hs, Hy.
    by apply (list_elem_of_fmap_2 (λ r, (State r, Year r))).
  - apply elem_of_cons in Hr as [->|Hr]; [by destruct Hne|]. by apply IH.
Qed.

(** X2.  In a table with the base columns where no two rows share their
    (State, Year) pair and where the revenues and the expenditures add
    up, in absolute value, to at most 2^53, the chart for the state and
    year of any row of the table shows exactly that row's Totals.Revenue
    and Totals.Expenditure. *)
Theorem revenue_vs_expenditure_unique_rows (d : DataFrame) (r : Row) :
  base_columns d →
  amounts_in_range d →
  NoDup ((λ r, (State r, Year r)) <$> rows d) →
  r ∈ rows d →
  barplot_bars (filtered_data d (State r) (Year r))
  = [("Revenue", Some (inject_Z (Totals_Revenue r)));
     ("Expenditure", Some (inject_Z (Totals_Expenditure r)))].
Proof.
  intros _ Hrange Hnd Hr. pose proof (rows_of_state_year_unique d r Hnd Hr) as E.
  destruct (amounts_in_range_selection d (State r) (Year r) Hrange) as [H1 H2].
  rewrite barplot_bars_filtered_data by by rewrite E.
  rewrite E in *. csimpl.
  rewrite !mean_singleton; [done|unfold Zsum in *; simpl in *; lia..].
Qed.

Lemma revenue_vs_expenditure_unique_rows_witness :
  barplot_bars (filtered_data ex_CA "CA" 2021)
  = [("Revenue", Some (inject_Z 120)); ("Expenditure", Some (inject_Z 90))].
Proof.
  assert (NoDup ((λ r, (State r, Year r)) <$> rows ex_CA)) as H1
    by (apply (bool_decide_unpack _); by vm_compute).
  assert (mkRow "CA" 2021 120 90 8 6 ∈ rows ex_CA) as H2
    by (simpl; set_solver).
  exact (revenue_vs_expenditure_unique_rows ex_CA (mkRow "CA" 2021 120 90 8 6)
           base_columns_ex_CA amounts_in_range_ex_CA H1 H2).
Defined.

(** ** The trend rows when the years of a state are distinct *)

Lemma rows_of_state_stable_spec (d : DataFrame) (state : string) :
  rows_of_state_stable d state ≡ₚ rows_of_state d state
  ∧ StronglySorted Z.le (Year <$> rows_of_state_stable d state).
Proof.
  unfold rows_of_state_stable. split; [apply sorted_Permutation|].
  apply Sorted_StronglySorted; [apply _|].
  apply (Sorted_fmap Year (λ r1 r2, Year r1 ≤ Year r2) Z.le); [done|].
  apply sorted_Sorted; intros r1 r2; [apply Z.leb_le|].
  rewrite Z.leb_gt. lia.
Qed.

(** X3.  When the rows of the selected state have pairwise distinct
    years, every sorting routine that meets the contract gives the same
    trend rows: the state's rows in ascending order of Year. *)
Theorem expenditure_trends_distinct_years (argsort : list Z → list nat)
    (d : DataFrame) (state : string) :
  argsort_contract argsort →
  NoDup (Year <$> rows_of_state d state) →
  state_data argsort d state = rows_of_state_stable d state.
Proof.
  intros Hsort Hnd. destruct (rows_of_state_stable_spec d state) as [Hperm Hsorted].
  assert (state_data argsort d state ≡ₚ rows_of_state d state) as Hperm'
    by by apply sort_values_Year_Permutation.
  apply (sorted_by_key_unique Year Z.le); [lia| | |by apply sort_values_Year_Sorted|done].
  - by rewrite Hperm'.
  - by rewrite Hperm', Hperm.
Qed.

Lemma expenditure_trends_distinct_years_witness :
  state_data argsort_reversing ex_CA "CA" = rows_of_state_stable ex_CA "CA".
Proof.
  assert (NoDup (Year <$> rows_of_state ex_CA "CA")) as H
    by (apply (bool_decide_unpack _); by vm_compute).
  exact (expenditure_trends_distinct_years argsort_reversing ex_CA "CA"
           argsort_reversing_contract H).
Defined.

(** ** More on the rankings *)

Lemma Zsum_fmap_add {A} (g h : A → Z) (l : list A) :
  Zsum ((λ x, g x + h x) <$> l) = Zsum (g <$> l) + Zsum (h <$> l).
Proof. unfold Zsum. induction l as [|x l IH]; csimpl; lia. Qed.

Lemma Zsum_indicator (ks : list string) (k : string) (c : Z) :
  NoDup ks → k ∈ ks →
  Zsum ((λ s, if decide (k = s) then c else 0) <$> ks) = c.
Proof.
  unfold Zsum. induction 1 as [|s ks Hs Hnd IH]; csimpl; intros Hk; [by inv Hk|].
  assert (k ∉ ks → foldr Z.add 0 ((λ s, if decide (k = s) then c else 0) <$> ks) = 0)
    as Hzero.
  { clear. induction ks as [|s ks IH]; csimpl; intros Hk; [done|].
    rewrite decide_False by set_solver. rewrite IH by set_solver. done. }
  apply elem_of_cons in Hk as [->|Hk].
  - rewrite decide_True by done. rewrite Hzero by done. lia.
  - rewrite decide_False by set_solver. by rewrite IH.
Qed.

(** The group sums add up to the sum of the column. *)
Lemma groupby_total (col : Row → Z) (rs : list Row) (ks : list string) :
  NoDup ks → (∀ r, r ∈ rs → State r ∈ ks) →
  Zsum ((λ s, Zsum (col <$> filter (λ r, State r = s) rs)) <$> ks) = Zsum (col <$> rs).
Proof.
  intros Hnd. induction rs as [|r rs IH]; intros Hin.
  - clear. change (Zsum ((λ _ : string, 0) <$> ks) = 0).
    unfold Zsum. induction ks as [|s ks IH]; csimpl; [done|]. by rewrite IH.
  - rewrite (list_fmap_ext _
      (λ s, (if decide (State r = s) then col r else 0)
            + Zsum (col <$> filter (λ r, State r = s) rs))).
    2:{ intros i s _. rewrite filter_cons. by case_decide. }
    rewrite Zsum_fmap_add, Zsum_indicator, IH by set_solver. done.
Qed.

(** X4.  For a table with the base columns whose revenues add up, in
    absolute value, to less than 2^63, the sums shown in the ranking add
    up to the total revenue of the selected year: grouping by state drops
    no row and counts none twice. *)
Theorem revenue_rankings_total (argsort : list Z → list nat) (d : DataFrame) (year : Z) :
  argsort_contract argsort →
  base_columns d →
  revenue_in_range d →
  Zsum (snd <$> state_revenues argsort d year)
  = Zsum (Totals_Revenue <$> rows_of_year d year).
Proof.
  intros Hsort _ Hrange.
  rewrite (Zsum_Permutation _
             (snd <$> groupby_State_sum Totals_Revenue (rows_of_year d year)))
    by by rewrite state_revenues_Permutation.
  unfold groupby_State_sum. rewrite <- list_fmap_compose.
  rewrite (list_fmap_ext _
             (λ s, Zsum (Totals_Revenue
                           <$> filter (λ r, State r = s) (rows_of_year d year))))
    by (intros i s _; by apply revenue_group_in_range).
  apply groupby_total.
  - rewrite sorted_Permutation. apply NoDup_unique.
  - intros r Hr. rewrite sorted_Permutation, list_elem_of_unique.
    by apply list_elem_of_fmap_2.
Qed.

Lemma revenue_rankings_total_witness :
  Zsum (snd <$> state_revenues argsort_stable ex_dup 2020) = 210
  ∧ Zsum (Totals_Revenue <$> rows_of_year ex_dup 2020) = 210.
Proof.
  split; [|reflexivity].
  rewrite (revenue_rankings_total argsort_stable ex_dup 2020 argsort_stable_contract
             base_columns_ex_dup revenue_in_range_ex_dup).
  reflexivity.
Defined.

(** X5.  When no two states of the selected year have the same summed
    revenue, the ranking and both panels are the same for every sorting
    routine that meets the contract. *)
Theorem revenue_rankings_no_ties (argsort1 argsort2 : list Z → list nat)
    (d : DataFrame) (year : Z) :
  argsort_contract argsort1 → argsort_contract argsort2 →
  NoDup (snd <$> groupby_State_sum Totals_Revenue (rows_of_year d year)) →
  state_revenues argsort1 d year = state_revenues argsort2 d year
  ∧ top_10_states argsort1 d year = top_10_states argsort2 d year
  ∧ bottom_10_states argsort1 d year = bottom_10_states argsort2 d year.
Proof.
  intros H1 H2 Hnd.
  assert (state_revenues argsort1 d year = state_revenues argsort2 d year) as E.
  { apply (sorted_by_key_unique snd (flip Z.le)); [unfold flip; lia| | |by apply state_revenues_Sorted..].
    - by rewrite state_revenues_Permutation.
    - by rewrite !state_revenues_Permutation. }
  split; [done|]. unfold top_10_states, bottom_10_states. rewrite E.
  split; [done|].
  apply (sorted_by_key_unique snd Z.le); [lia| | |by apply Series_sort_values_asc_Sorted..].
  - rewrite Series_sort_values_asc_Permutation by done.
    unfold tail. rewrite fmap_drop. eapply sublist_NoDup; [|apply sublist_drop].
    by rewrite state_revenues_Permutation.
  - by rewrite !Series_sort_values_asc_Permutation.
Qed.

Lemma revenue_rankings_no_ties_witness :
  top_10_states argsort_stable ex_25 2022 = top_10_states argsort_reversing ex_25 2022
  ∧ bottom_10_states argsort_stable ex_25 2022
    = bottom_10_states argsort_reversing ex_25 2022.
Proof.
  assert (NoDup (snd <$> groupby_State_sum Totals_Revenue (rows_of_year ex_25 2022)))
    as H by (apply (bool_decide_unpack _); by vm_compute).
  exact (proj2 (revenue_rankings_no_ties argsort_stable argsort_reversing ex_25 2022
                  argsort_stable_contract argsort_reversing_contract H)).
Defined.

(** X6.  With at least one and fewer than 20 states for the selected year,
    some state is in both panels; with at most 10, each panel shows every
    state. *)
Theorem revenue_rankings_overlap (argsort : list Z → list nat) (d : DataFrame) (year : Z) :
  argsort_contract argsort →
  ((0 < length (unique (State <$> rows_of_year d year)) < 20)%nat →
   ∃ p, p ∈ top_10_states argsort d year ∧ p ∈ bottom_10_states argsort d year)
  ∧ ((length (unique (State <$> rows_of_year d year)) ≤ 10)%nat →
     top_10_states argsort d year = state_revenues argsort d year
     ∧ bottom_10_states argsort d year ≡ₚ state_revenues argsort d year).
Proof.
  intros Hsort.
  pose proof (state_revenues_length argsort Hsort d year) as Hlen.
  pose proof (bottom_10_states_Permutation argsort Hsort d year) as Hbot.
  unfold top_10_states, head.
  set (sr := state_revenues argsort d year) in *.
  rewrite <- Hlen. split.
  - intros [Hpos Hlt].
    destruct (lookup_lt_is_Some_2 sr (length sr - 10)) as [p Hp]; [lia|].
    exists p. split.
    + apply elem_of_take. exists (length sr - 10)%nat. split; [done|lia].
    + rewrite Hbot. apply (list_elem_of_lookup_2 _ 0%nat).
      by rewrite lookup_drop, Nat.add_0_r.
  - intros Hle. split; [by apply take_ge; lia|].
    rewrite Hbot. replace (length sr - 10)%nat with 0%nat by lia. by rewrite drop_0.
Qed.

Lemma revenue_rankings_overlap_witness :
  (∃ p, p ∈ top_10_states argsort_stable ex_dup 2020
        ∧ p ∈ bottom_10_states argsort_stable ex_dup 2020)
  ∧ top_10_states argsort_stable ex_dup 2020 = [("CA", 150); ("NY", 60)].
Proof.
  destruct (revenue_rankings_overlap argsort_stable ex_dup 2020 argsort_stable_contract)
    as [Hov Hall].
  split.
  - apply Hov. vm_compute. lia.
  - rewrite (proj1 (Hall ltac:(vm_compute; lia))). reflexivity.
Defined.

(** ** What the chart functions put on the page *)










(** ** Selections offered by the sidebar *)

Lemma states_have_rows (d : DataFrame) (s : string) :
  s ∈ states d → rows_of_state d s ≠ [].
Proof.
  intros Hs. apply states_spec in Hs as (r & -> & Hr)%list_elem_of_fmap.
  intros Hnil. assert (r ∈ rows_of_state d (State r)) as Hin
    by by apply list_elem_of_filter.
  rewrite Hnil in Hin. by inv Hin.
Qed.

Lemma years_have_rows (d : DataFrame) (y : Z) :
  y ∈ years d → rows_of_year d y ≠ [].
Proof.
  intros Hy. apply years_spec in Hy as (r & -> & Hr)%list_elem_of_fmap.
  intros Hnil. assert (r ∈ rows_of_year d (Year r)) as Hin
    by by apply list_elem_of_filter.
  rewrite Hnil in Hin. by inv Hin.
Qed.

(** X9.  On a table with the base columns, for a state taken from the
    resolved state list and a year taken from the resolved year list, the
    trends view (with both detail columns present) and the rankings view
    always draw their charts: their no-data warnings cannot be reached
    from the selectors.  Only the Revenue-vs-Expenditure view can meet an
    absent combination. *)
Theorem offered_selections_have_data (argsort : list Z → list nat) (l : loc)
    (state : string) (year : Z) (σ : session) (d : DataFrame) :
  argsort_contract argsort →
  base_columns d →
  heap σ !! l = Some (DataFrameObj d) →
  state ∈ states d → year ∈ years d →
  (health_col ∈ columns d → edu_col ∈ columns d →
   ∃ objs fig1 fig2,
     plot_expenditure_trends argsort l state σ
     = Ok (tt, mkSession (heap σ ++ objs) (page σ ++ [st_pyplot fig1; st_pyplot fig2])))
  ∧ (∃ objs fig,
       plot_revenue_rankings argsort l year σ
       = Ok (tt, mkSession (heap σ ++ objs) (page σ ++ [st_pyplot fig]))).
Proof.
  intros Hsort _ Hl Hs Hy. split.
  - intros Hh He.
    destruct (plot_expenditure_trends_charts argsort l state σ d Hsort Hl Hh He)
      as [objs Hrun]; [by apply states_have_rows|].
    by eexists _, _, _.
  - destruct (plot_revenue_rankings_chart argsort l year σ d Hl) as [objs Hrun];
      [by apply years_have_rows|].
    by eexists _, _.
Qed.

Lemma offered_selections_have_data_witness :
  (∃ objs fig,
     plot_revenue_rankings argsort_stable 0%nat 2021 (session0 ex_CA)
     = Ok (tt, mkSession ([DataFrameObj ex_CA] ++ objs) [st_pyplot fig]))
  ∧ rows_of_state_year ex_dup "NY" 2020 ≠ [].
Proof.
  assert (heap (session0 ex_CA) !! 0%nat = Some (DataFrameObj ex_CA)) as H1
    by reflexivity.
  assert ("CA" ∈ states ex_CA) as Hs by (vm_compute; set_solver).
  assert (2021 ∈ years ex_CA) as Hy by (vm_compute; set_solver).
  split; [|by vm_compute].
  exact (proj2 (offered_selections_have_data argsort_stable 0%nat "CA" 2021
                  (session0 ex_CA) ex_CA argsort_stable_contract
                  base_columns_ex_CA H1 Hs Hy)).
Defined.


(** * The script *)

(** ** The chart functions on their own and inside a run *)








(** ** How a run of the script ends *)



(** X11.  When [pd.read_csv] raises, [load_data] shows its one error
    message and returns [None]; the script creates no object, still opens
    the three tabs, and then ends with [NameError] for [selected_state]
    before anything is put in a tab: no chart function is called. *)
Theorem script_load_failure (h : host) (argsort : list Z → list nat)
    (file msg : string) (s : script_state) :
  read_csv h file = inl msg →
  script h argsort (Some file) s
  = (Halt (NameError "selected_state"),
     mkScript (objects s)
       (shown s
        ++ [st_title "💰 USA State Financial Analysis Dashboard";
            st_markdown "An interactive dashboard to explore and visualize financial data of US states over the years.";
            st_header "⚙️ Controls & Filters";
            st_file_uploader "Upload your finance CSV file";
            st_chart (st_error ("Error loading data: " +:+ msg));
            st_tabs ["📊 Revenue vs. Expenditure"; "📈 Expenditure Trends";
                     "🏆 State Rankings"]])).
Proof.
  intros Hread. destruct s as [o p].
  unfold script, sidebar, tabs, and_then, show, call, load_data, done_with,
    raise_NameError.
  cbn [objects shown]. rewrite Hread.
  unfold bind, emit, ret. cbn [heap page objects shown fmap list_fmap app].
  by rewrite <- !app_assoc.
Qed.

Lemma script_load_failure_witness :
  fst (script (ex_host ex_CA) argsort_stable (Some "") (mkScript [] []))
  = Halt (NameError "selected_state").
Proof.
  by rewrite (script_load_failure (ex_host ex_CA) argsort_stable ""
                "No columns to parse from file" (mkScript [] []) eq_refl).
Defined.



(** * Independence of the order of the rows *)



(** X13.  The two selectors depend only on which values occur in the State
    and Year columns: tables with the same sets of values offer the same
    states and the same years, whatever the order and the number of their
    rows. *)
Theorem selectors_depend_on_values (d1 d2 : DataFrame) :
  (∀ s, s ∈ State <$> rows d1 ↔ s ∈ State <$> rows d2) →
  (∀ y, y ∈ Year <$> rows d1 ↔ y ∈ Year <$> rows d2) →
  states d1 = states d2 ∧ years d1 = years d2.
Proof.
  intros Hs Hy.
  destruct (states_spec d1) as [S1 E1], (states_spec d2) as [S2 E2].
  destruct (years_spec d1) as [Y1 F1], (years_spec d2) as [Y2 F2].
  split.
  - apply (StronglySorted_strict_unique str_lt); [done..|].
    intros s. by rewrite E1, E2.
  - apply (StronglySorted_strict_unique Z.lt); [done..|].
    intros y. by rewrite F1, F2.
Qed.

Lemma selectors_depend_on_values_witness :
  states ex_CA = states (mkDataFrame [] [mkRow "CA" 2021 0 0 0 0; mkRow "CA" 2020 1 1 1 1;
                                         mkRow "CA" 2021 2 2 2 2])
  ∧ years ex_CA = years (mkDataFrame [] [mkRow "CA" 2021 0 0 0 0; mkRow "CA" 2020 1 1 1 1;
                                         mkRow "CA" 2021 2 2 2 2]).
Proof.
  apply (selectors_depend_on_values ex_CA
           (mkDataFrame [] [mkRow "CA" 2021 0 0 0 0; mkRow "CA" 2020 1 1 1 1;
                            mkRow "CA" 2021 2 2 2 2])).
  - intros s. simpl. set_solver.
  - intros y. simpl. set_solver.
Defined.


